(** * Student Career Assistant: the session store and the query router

    A shallow embedding of [agent.py]: the memory bank
    ([StudentMemoryBank]), the four specialist tools
    ([DSAProblemRecommender], [ResumeAnalyzer], [LearningResourceAgent],
    [StudyPlannerAgent]) and the coordinator ([CoordinatorAgent]), followed
    by the properties of the router and of the session memory.

    Conventions of the embedding:
    - a Python [str] is the [string] of its UTF-8 bytes; [str.lower] is
      modelled on every character whose lower-casing holds an ASCII
      character (see [PyStr.lower]), which is all that the program's
      comparisons with its ASCII keywords and keys can see;
    - a Python [int] is a [Z];
    - a [dict] with string keys is a [gmap string _]; the dicts with a fixed
      shape that the program builds (a student entry, a progress entry, the
      response, ...) are records whose fields carry the keys' names;
    - the mutable state (the [students] dict of the memory bank, the lines
      handed to [logger.info], the wall clock) is threaded through a state
      and exception monad. *)

From stdpp Require Import gmap strings list fin_maps pretty.
From Stdlib Require Import ZArith Ascii String Lia.

Open Scope string_scope.
Open Scope Z_scope.

(** ** Python strings *)

Module PyStr.

(** The character with the given code. *)
Definition byte (n : N) : ascii := ascii_of_N n.

(** [str.lower()] on one ASCII character. *)
Definition lower_char (c : ascii) : ascii :=
  let n := N_of_ascii c in
  if ((65 <=? n) && (n <=? 90))%N then ascii_of_N (n + 32) else c.

(** U+212A KELVIN SIGN, which [str.lower()] turns into [k]. *)
Definition KELVIN_SIGN : string :=
  String (byte 226) (String (byte 132) (String (byte 170) EmptyString)).

(** U+0130 LATIN CAPITAL LETTER I WITH DOT ABOVE, which [str.lower()] turns
    into [i] followed by U+0307 COMBINING DOT ABOVE. *)
Definition CAPITAL_I_WITH_DOT_ABOVE : string :=
  String (byte 196) (String (byte 176) EmptyString).

Definition COMBINING_DOT_ABOVE : string :=
  String (byte 204) (String (byte 135) EmptyString).

(** [s.lower()].  Besides [A]..[Z], two characters have a lower-case form
    that holds an ASCII character: the Kelvin sign and the dotted capital I.
    The lower-case form of every other character outside ASCII lies outside
    ASCII as well, whatever the context (the two forms of the Greek sigma
    included); the program only ever tests the lower-cased text against
    ASCII words, so those characters are left as they are. *)
Fixpoint lower (s : string) : string :=
  match s with
  | EmptyString => EmptyString
  | String c1 s1 =>
      match s1 with
      | EmptyString => String (lower_char c1) EmptyString
      | String c2 s2 =>
          if Ascii.eqb c1 (byte 196) && Ascii.eqb c2 (byte 176)
          then String "i" (COMBINING_DOT_ABOVE +:+ lower s2)
          else
            match s2 with
            | EmptyString => String (lower_char c1) (lower s1)
            | String c3 s3 =>
                if Ascii.eqb c1 (byte 226) && Ascii.eqb c2 (byte 132)
                   && Ascii.eqb c3 (byte 170)
                then String "k" (lower s3)
                else String (lower_char c1) (lower s1)
            end
      end
  end.

(** [s.startswith(p)] *)
Fixpoint startswith (p s : string) : bool :=
  match p, s with
  | EmptyString, _ => true
  | String _ _, EmptyString => false
  | String a p', String b s' => if Ascii.eqb a b then startswith p' s' else false
  end.

(** [sub in s] for two strings: [sub] occurs in [s] at some offset. *)
Fixpoint str_in (sub s : string) : bool :=
  startswith sub s ||
  match s with
  | EmptyString => false
  | String _ s' => str_in sub s'
  end.

(** [s.replace(old, new)] where [old] and [new] are single characters. *)
Fixpoint replace (old new : ascii) (s : string) : string :=
  match s with
  | EmptyString => EmptyString
  | String c s' => String (if Ascii.eqb c old then new else c) (replace old new s')
  end.

(** [any(word in s for word in words)] *)
Definition any_in (words : list string) (s : string) : bool :=
  existsb (fun word => str_in word s) words.

(** The mathematical reading of [sub in s]. *)
Definition is_substring (sub s : string) : Prop :=
  exists pre post : string, s = pre +:+ sub +:+ post.

End PyStr.

Import PyStr.

(** ** Data model *)

(** The values a profile holds (name, year, major, ...). *)
Inductive Scalar : Type :=
| SStr (s : string)
| SInt (z : Z)
| SBool (b : bool).

(** An entry of a student's ['progress'] list. *)
Record Activity : Type := mkActivity {
  activity : string;
  details : gmap string string;
  timestamp : string
}.

(** The value stored in [students] under a student id. *)
Record Student : Type := mkStudent {
  profile : gmap string Scalar;
  progress : list Activity;
  preferences : gmap string Scalar;
  created_at : string
}.

(** What [get_student_context] returns: the stored entry, or the default
    [{}] of [dict.get]. *)
Inductive Context : Type :=
| EmptyDict
| Entry (s : Student).

(** ** The state and exception monad *)

(** The state the program acts on: the memory bank's [students] dict, the
    number of readings of the wall clock taken so far, and the messages
    passed to [logger.info], oldest first. *)
Record World : Type := mkWorld {
  students : gmap string Student;
  ticks : nat;
  logged : list string
}.

Inductive PyError : Type :=
| ZeroDivisionError
| IndexError
| KeyError.

Inductive Outcome (A : Type) : Type :=
| Ok (a : A)
| Raise (e : PyError).
Arguments Ok {A} a.
Arguments Raise {A} e.

Definition M (A : Type) : Type := World -> Outcome A * World.

Definition ret {A} (a : A) : M A := fun w => (Ok a, w).

Definition raise {A} (e : PyError) : M A := fun w => (Raise e, w).

Definition bind {A B} (m : M A) (k : A -> M B) : M B :=
  fun w =>
    match m w with
    | (Ok a, w') => k a w'
    | (Raise e, w') => (Raise e, w')
    end.

Declare Scope py_scope.
Delimit Scope py_scope with py.
Notation "x <- m ;; k" := (bind m (fun x => k))
  (at level 100, m at next level, right associativity) : py_scope.
Notation "m ;; k" := (bind m (fun _ => k))
  (at level 100, right associativity) : py_scope.
Open Scope py_scope.

(** [logger.info(msg)] *)
Definition logger_info (msg : string) : M unit :=
  fun w => (Ok tt, mkWorld (students w) (ticks w) (logged w ++ [msg])).

(** [len(l)] *)
Definition len {A} (l : list A) : Z := Z.of_nat (List.length l).

(** [l[i]] on a list: a negative index counts from the end, and an index
    out of range raises [IndexError]. *)
Definition getitem {A} (l : list A) (i : Z) : M A :=
  let j := if i <? 0 then len l + i else i in
  if j <? 0 then raise IndexError
  else match l !! Z.to_nat j with
       | Some x => ret x
       | None => raise IndexError
       end.

(** [d[k]] on a dict: a missing key raises [KeyError]. *)
Definition dict_getitem {V} (d : gmap string V) (k : string) : M V :=
  match d !! k with
  | Some v => ret v
  | None => raise KeyError
  end.

(** [range(start, stop)] *)
Definition range (start stop : Z) : list Z := seqZ start (stop - start).

(** The truth value of a string and of a list: empty is false. *)
Definition str_truthy (s : string) : bool :=
  match s with EmptyString => false | String _ _ => true end.

Definition list_truthy {A} (l : list A) : bool :=
  match l with [] => false | _ :: _ => true end.

(** [a % b] on integers: [ZeroDivisionError] when [b] is zero, otherwise
    the remainder with the sign of [b]. *)
Definition py_mod (a b : Z) : M Z :=
  if b =? 0 then raise ZeroDivisionError else ret (a mod b).

(** ** The specialist tools *)

Module DSAProblemRecommender.

Record Problem : Type := mkProblem {
  name : string;
  topic : string;
  difficulty : string
}.

(** [self.problems] *)
Definition problems : gmap string (list Problem) :=
  {[ "easy" :=
       [ mkProblem "Two Sum" "Array" "Easy";
         mkProblem "Valid Parentheses" "Stack" "Easy";
         mkProblem "Merge Two Sorted Lists" "Linked List" "Easy" ];
     "medium" :=
       [ mkProblem "LRU Cache" "Design" "Medium";
         mkProblem "Binary Tree Level Order" "Tree" "Medium";
         mkProblem "Longest Substring" "String" "Medium" ];
     "hard" :=
       [ mkProblem "Median of Two Sorted Arrays" "Binary Search" "Hard";
         mkProblem "Word Ladder II" "Graph" "Hard" ] ]}.

(** [__init__]: the catalogue is the constant [problems]; one line is logged. *)
Definition init : M unit := logger_info "DSA Problem Recommender initialized".

(** [recommend(level, topic=None)]; [None] stands for the default. *)
Definition recommend (level : string) (topic : option string) : M (list Problem) :=
  let problems := default [] (problems !! lower level) in
  let problems :=
    match topic with
    | Some t =>
        if str_truthy t
        then List.filter (fun p => String.eqb (lower (DSAProblemRecommender.topic p)) (lower t)) problems
        else problems
    | None => problems
    end in
  logger_info ("Recommended " +:+ pretty (len problems) +:+ " problems for level: " +:+ level) ;;
  ret problems.

End DSAProblemRecommender.

Module ResumeAnalyzer.

Record Analysis : Type := mkAnalysis {
  ats_score : Z;
  keyword_analysis : gmap string (list string);
  suggestions : list string;
  strengths : list string
}.

(** [self.ats_keywords] *)
Definition ats_keywords : gmap string (list string) :=
  {[ "technical_skills" :=
       [ "python"; "java"; "c++"; "javascript"; "sql"; "react"; "aws"; "docker"; "kubernetes" ];
     "soft_skills" :=
       [ "leadership"; "communication"; "teamwork"; "problem-solving"; "analytical" ];
     "action_verbs" :=
       [ "developed"; "implemented"; "designed"; "optimized"; "led"; "managed"; "created" ] ]}.

(** [__init__]: the keywords are the constant [ats_keywords]; one line is
    logged. *)
Definition init : M unit := logger_info "Resume Analyzer initialized".

(** The default of [target_role]. *)
Definition default_target_role : string := "Software Engineer".

(** [analyze(resume_text, target_role)] *)
Definition analyze (resume_text : string) (target_role : string) : M Analysis :=
  let resume_lower := lower resume_text in
  technical_skills <- dict_getitem ats_keywords "technical_skills" ;;
  let found_tech := List.filter (fun skill => str_in skill resume_lower) technical_skills in
  let keyword_analysis : gmap string (list string) := <["technical_skills" := found_tech]> ∅ in
  let strengths :=
    if list_truthy found_tech
    then [ "Found " +:+ pretty (len found_tech) +:+ " relevant technical skills" ]
    else [] in
  let ats_score := Z.min 100 (len found_tech * 5 + 20) in
  let suggestions :=
    if len found_tech <? 5
    then [ "Add more technical skills relevant to the role" ]
    else [] in
  logger_info ("Resume analyzed. ATS Score: " +:+ pretty ats_score) ;;
  ret (mkAnalysis ats_score keyword_analysis suggestions strengths).

End ResumeAnalyzer.

Module LearningResourceAgent.

Record Resource : Type := mkResource {
  title : string;
  type : string;
  difficulty : string
}.

(** [self.resources] *)
Definition resources : gmap string (list Resource) :=
  {[ "dsa" :=
       [ mkResource "LeetCode Patterns" "Practice" "Medium";
         mkResource "Neetcode.io" "Video + Practice" "All levels" ];
     "system_design" :=
       [ mkResource "System Design Primer (GitHub)" "Article" "Beginner";
         mkResource "ByteByteGo" "Video" "All levels" ] ]}.

(** [__init__]: the catalogue is the constant [resources]; one line is
    logged. *)
Definition init : M unit := logger_info "Learning Resource Agent initialized".

(** The default of [level]. *)
Definition default_level : string := "All levels".

(** [recommend(topic, level)] *)
Definition recommend (topic : string) (level : string) : M (list Resource) :=
  let topic_lower := replace " " "_" (lower topic) in
  let resources := default [] (resources !! topic_lower) in
  logger_info ("Recommended " +:+ pretty (len resources) +:+ " resources for " +:+ topic) ;;
  ret resources.

End LearningResourceAgent.

Module StudyPlannerAgent.

Record WeekPlan : Type := mkWeekPlan {
  week : Z;
  focus : string;
  activities : list string
}.

Record Plan : Type := mkPlan {
  duration : string;
  daily_commitment : string;
  weekly_schedule : list WeekPlan;
  milestones : list string
}.

(** [__init__]: one line is logged. *)
Definition init : M unit := logger_info "Study Planner Agent initialized".

(** The default of [hours_per_day]. *)
Definition default_hours_per_day : Z := 4.

(** The body of the [for week in ...] loop, run over the weeks that remain;
    [weekly_schedule] is the list built so far. *)
Fixpoint for_week (weeks : list Z) (focus_areas : list string)
    (weekly_schedule : list WeekPlan) : M (list WeekPlan) :=
  match weeks with
  | [] => ret weekly_schedule
  | week :: weeks' =>
      i <- py_mod (week - 1) (len focus_areas) ;;
      focus <- getitem focus_areas i ;;
      let week_plan :=
        mkWeekPlan week focus
          [ "Practice coding problems"; "Mock interviews"; "Resume review" ] in
      for_week weeks' focus_areas (weekly_schedule ++ [week_plan])
  end.

(** [create_plan(weeks, focus_areas, hours_per_day)] *)
Definition create_plan (weeks : Z) (focus_areas : list string) (hours_per_day : Z) : M Plan :=
  let duration := pretty weeks +:+ " weeks" in
  let daily_commitment := pretty hours_per_day +:+ " hours/day" in
  weekly_schedule <- for_week (range 1 (weeks + 1)) focus_areas [] ;;
  logger_info ("Created " +:+ pretty weeks +:+ "-week study plan") ;;
  ret (mkPlan duration daily_commitment weekly_schedule []).

End StudyPlannerAgent.

(** ** The coordinator's response *)

(** A value stored under a key of [response['results']]. *)
Inductive ResultValue : Type :=
| Problems (l : list DSAProblemRecommender.Problem)
| ResumeAnalysis (a : ResumeAnalyzer.Analysis)
| Resources (l : list LearningResourceAgent.Resource)
| StudyPlan (p : StudyPlannerAgent.Plan).

Record Response : Type := mkResponse {
  student_id : string;
  query : string;
  results : gmap string ResultValue;
  summary : string
}.

Section Agent.

(** The wall clock: [clock n] is the text that the [n]-th evaluation of
    [datetime.now().isoformat()] yields. *)
Variable clock : nat -> string.

(** [datetime.now().isoformat()]: one more reading of the clock. *)
Definition datetime_now_isoformat : M string :=
  fun w => (Ok (clock (ticks w)), mkWorld (students w) (S (ticks w)) (logged w)).

(** *** StudentMemoryBank *)

(** [__init__]: an empty [students] dict. *)
Definition StudentMemoryBank_init : M unit :=
  fun w => logger_info "Memory Bank initialized" (mkWorld ∅ (ticks w) (logged w)).

(** [self.students[student_id] = s] *)
Definition set_student (student_id : string) (s : Student) : M unit :=
  fun w => (Ok tt, mkWorld (<[student_id := s]> (students w)) (ticks w) (logged w)).

(** [add_student]: the entry of [student_id] is set to a new one, whether or
    not the id had an entry. *)
Definition add_student (student_id : string) (profile : gmap string Scalar) : M unit :=
  now <- datetime_now_isoformat ;;
  set_student student_id (mkStudent profile [] ∅ now) ;;
  logger_info ("Added student: " +:+ student_id).

(** [update_progress]: appends to the ['progress'] list of a stored student;
    for an id that is not stored the body of the [if] is skipped, so the
    clock is not read and nothing is logged. *)
Definition update_progress (student_id : string) (activity : string)
    (details : gmap string string) : M unit :=
  fun w =>
    match students w !! student_id with
    | Some s =>
        (now <- datetime_now_isoformat ;;
         set_student student_id
           (mkStudent (profile s)
                      (progress s ++ [mkActivity activity details now])
                      (preferences s) (created_at s)) ;;
         logger_info ("Updated progress for " +:+ student_id +:+ ": " +:+ activity)) w
    | None => (Ok tt, w)
    end.

(** [get_student_context]: [self.students.get(student_id, {})] *)
Definition get_student_context (student_id : string) : M Context :=
  fun w => (Ok (from_option Entry EmptyDict (students w !! student_id)), w).

(** *** CoordinatorAgent *)

(** [__init__]: the coordinator keeps the memory bank and the four tools it
    is given, which here are the state and the tools' modules; one line is
    logged. *)
Definition CoordinatorAgent_init : M unit :=
  logger_info "Coordinator Agent initialized with all specialist agents".

(** [process_query]: the four routing tests run in the order of the source,
    each storing its tool's value under its own key of [results]; the
    timestamp of the details is read before [update_progress] is entered. *)
Definition process_query (student_id query : string) : M Response :=
  logger_info ("Processing query for student " +:+ student_id) ;;
  context <- get_student_context student_id ;;
  let query_lower := lower query in
  let results : gmap string ResultValue := ∅ in
  results <-
    (if any_in ["problem"; "dsa"; "algorithm"] query_lower then
       let level := "medium" in
       let level :=
         if str_in "easy" query_lower then "easy"
         else if str_in "hard" query_lower then "hard"
         else level in
       problems <- DSAProblemRecommender.recommend level None ;;
       ret (<["dsa_recommendations" := Problems problems]> results)
     else ret results) ;;
  results <-
    (if any_in ["resume"; "cv"; "ats"] query_lower then
       analysis <- ResumeAnalyzer.analyze "Sample resume text"
                     ResumeAnalyzer.default_target_role ;;
       ret (<["resume_analysis" := ResumeAnalysis analysis]> results)
     else ret results) ;;
  results <-
    (if any_in ["learn"; "resource"; "study material"] query_lower then
       resources <- LearningResourceAgent.recommend "dsa"
                      LearningResourceAgent.default_level ;;
       ret (<["learning_resources" := Resources resources]> results)
     else ret results) ;;
  results <-
    (if any_in ["plan"; "schedule"; "weeks"] query_lower then
       let weeks := 4 in
       plan <- StudyPlannerAgent.create_plan weeks ["DSA"; "System Design"]
                 StudyPlannerAgent.default_hours_per_day ;;
       ret (<["study_plan" := StudyPlan plan]> results)
     else ret results) ;;
  let summary := "Here are your personalized recommendations." in
  now <- datetime_now_isoformat ;;
  update_progress student_id "query"
    (<["question" := query]> (<["timestamp" := now]> ∅)) ;;
  ret (mkResponse student_id query results summary).

End Agent.

(** ** The demonstration run of [__main__] *)

Definition demo_profile : gmap string Scalar :=
  {[ "name" := SStr "Sai Ganesh"; "year" := SStr "3rd Year"; "major" := SStr "CS/AI-ML" ]}.

Definition demo_query : string :=
  "I have an interview in 3 weeks. Can you help me prepare?".

(** What [__main__] does before its query: the memory bank, the four tools
    and the coordinator are constructed in this order, and the demo student
    is registered (the [print] calls are left out). *)
Definition setup (clock : nat -> string) : M unit :=
  StudentMemoryBank_init ;;
  DSAProblemRecommender.init ;;
  ResumeAnalyzer.init ;;
  LearningResourceAgent.init ;;
  StudyPlannerAgent.init ;;
  CoordinatorAgent_init ;;
  add_student clock "student_001" demo_profile.

(** [__main__]: the set-up, then the demo query. *)
Definition main (clock : nat -> string) : M Response :=
  setup clock ;;
  process_query clock "student_001" demo_query.

(** A clock for running the program inside Rocq: the [n]-th reading is the
    [n]-th second of the day. *)
Definition demo_clock (n : nat) : string := "2025-11-15T00:00:" +:+ pretty n.

(** The state before anything has run. *)
Definition boot : World := mkWorld ∅ 0 [].

(** The state in which [__main__] submits its query. *)
Definition demo_world : World := snd (setup demo_clock boot).

(** The entry of the demo student, as [add_student] stores it at boot. *)
Definition demo_student : Student := mkStudent demo_profile [] ∅ (demo_clock 0).

(** ** Closed forms used by the proofs *)

(** The value a computation returns, when it does not raise. *)
Definition value_of {A} (m : M A) (w : World) : option A :=
  match m w with
  | (Ok a, _) => Some a
  | (Raise _, _) => None
  end.

(** The state a computation leaves. *)
Definition world_after {A} (m : M A) (w : World) : World := snd (m w).

(** The state with [msgs] logged. *)
Definition log_more (msgs : list string) (w : World) : World :=
  mkWorld (students w) (ticks w) (logged w ++ msgs).

(** The list stored under ['technical_skills'] in [ats_keywords]. *)
Definition technical_skills : list string :=
  [ "python"; "java"; "c++"; "javascript"; "sql"; "react"; "aws"; "docker"; "kubernetes" ].

(** The technical skills that occur in the lower-cased text. *)
Definition found_tech (resume_text : string) : list string :=
  List.filter (fun skill => str_in skill (lower resume_text)) technical_skills.

(** The number of technical-skill keywords matched in a text. *)
Definition matched_count (resume_text : string) : Z := len (found_tech resume_text).

(** The focus of a week: [focus_areas[(week - 1) % len(focus_areas)]]. *)
Definition focus_of (focus_areas : list string) (week : Z) : option string :=
  focus_areas !! Z.to_nat ((week - 1) mod len focus_areas).

(** The entry the planner's loop appends for a week. *)
Definition week_entry (focus_areas : list string) (week : Z) : StudyPlannerAgent.WeekPlan :=
  StudyPlannerAgent.mkWeekPlan week (default "" (focus_of focus_areas week))
    [ "Practice coding problems"; "Mock interviews"; "Resume review" ].

(** The catalogue entry of a level. *)
Definition catalog (level : string) : list DSAProblemRecommender.Problem :=
  default [] (DSAProblemRecommender.problems !! lower level).

(** The level the router passes to the problem recommender. *)
Definition resolved_level (query_lower : string) : string :=
  if str_in "easy" query_lower then "easy"
  else if str_in "hard" query_lower then "hard"
  else "medium".

(** What the three tools with fixed arguments return inside [process_query]. *)
Definition sample_analysis : ResumeAnalyzer.Analysis :=
  ResumeAnalyzer.mkAnalysis 20 {[ "technical_skills" := [] ]}
    [ "Add more technical skills relevant to the role" ] [].

Definition dsa_resources : list LearningResourceAgent.Resource :=
  [ LearningResourceAgent.mkResource "LeetCode Patterns" "Practice" "Medium";
    LearningResourceAgent.mkResource "Neetcode.io" "Video + Practice" "All levels" ].

Definition four_week_plan : StudyPlannerAgent.Plan :=
  StudyPlannerAgent.mkPlan "4 weeks" "4 hours/day"
    (map (week_entry ["DSA"; "System Design"]) [1; 2; 3; 4]) [].

(** The four routing tests of [process_query]. *)
Definition wants_problems (query_lower : string) : bool :=
  any_in ["problem"; "dsa"; "algorithm"] query_lower.
Definition wants_resume (query_lower : string) : bool :=
  any_in ["resume"; "cv"; "ats"] query_lower.
Definition wants_resources (query_lower : string) : bool :=
  any_in ["learn"; "resource"; "study material"] query_lower.
Definition wants_plan (query_lower : string) : bool :=
  any_in ["plan"; "schedule"; "weeks"] query_lower.

(** [response['results']] as a function of the lower-cased query. *)
Definition routed_results (query_lower : string) : gmap string ResultValue :=
  let results : gmap string ResultValue := ∅ in
  let results :=
    if wants_problems query_lower
    then <["dsa_recommendations" := Problems (catalog (resolved_level query_lower))]> results
    else results in
  let results :=
    if wants_resume query_lower
    then <["resume_analysis" := ResumeAnalysis sample_analysis]> results
    else results in
  let results :=
    if wants_resources query_lower
    then <["learning_resources" := Resources dsa_resources]> results
    else results in
  if wants_plan query_lower
  then <["study_plan" := StudyPlan four_week_plan]> results
  else results.

(** The lines logged by [process_query] before it records the query. *)
Definition routed_messages (student_id query_lower : string) : list string :=
  [ "Processing query for student " +:+ student_id ] ++
  (if wants_problems query_lower
   then [ "Recommended " +:+ pretty (len (catalog (resolved_level query_lower)))
          +:+ " problems for level: " +:+ resolved_level query_lower ]
   else []) ++
  (if wants_resume query_lower then [ "Resume analyzed. ATS Score: 20" ] else []) ++
  (if wants_resources query_lower then [ "Recommended 2 resources for dsa" ] else []) ++
  (if wants_plan query_lower then [ "Created 4-week study plan" ] else []).

(** The progress entry [process_query] hands to the memory bank, when the
    clock has been read [n] times before. *)
Definition query_activity (clock : nat -> string) (query : string) (n : nat) : Activity :=
  mkActivity "query"
    (<["question" := query]> (<["timestamp" := clock n]> ∅))
    (clock (S n)).

(** The state [process_query] leaves. *)
Definition recorded (clock : nat -> string) (student_id query : string) (w : World) : World :=
  let msgs := routed_messages student_id (lower query) in
  match students w !! student_id with
  | Some s =>
      mkWorld
        (<[student_id :=
             mkStudent (profile s)
               (progress s ++ [query_activity clock query (ticks w)])
               (preferences s) (created_at s)]> (students w))
        (S (S (ticks w)))
        ((logged w ++ msgs) ++ [ "Updated progress for " +:+ student_id +:+ ": " +:+ "query" ])
  | None => mkWorld (students w) (S (ticks w)) (logged w ++ msgs)
  end.

(** ** Definitions for the further properties *)

(** The state [__main__] ends in, and the entry of the demo student in it,
    with the demo query on record. *)
Definition final_world : World := snd (main demo_clock boot).

Definition recorded_student : Student :=
  mkStudent demo_profile [ query_activity demo_clock demo_query 1 ] ∅ (demo_clock 0).

(** The three lists of [DSAProblemRecommender.problems]. *)
Definition easy_problems : list DSAProblemRecommender.Problem :=
  [ DSAProblemRecommender.mkProblem "Two Sum" "Array" "Easy";
    DSAProblemRecommender.mkProblem "Valid Parentheses" "Stack" "Easy";
    DSAProblemRecommender.mkProblem "Merge Two Sorted Lists" "Linked List" "Easy" ].

Definition medium_problems : list DSAProblemRecommender.Problem :=
  [ DSAProblemRecommender.mkProblem "LRU Cache" "Design" "Medium";
    DSAProblemRecommender.mkProblem "Binary Tree Level Order" "Tree" "Medium";
    DSAProblemRecommender.mkProblem "Longest Substring" "String" "Medium" ].

Definition hard_problems : list DSAProblemRecommender.Problem :=
  [ DSAProblemRecommender.mkProblem "Median of Two Sorted Arrays" "Binary Search" "Hard";
    DSAProblemRecommender.mkProblem "Word Ladder II" "Graph" "Hard" ].

(** Whether a problem passes the topic filter of [recommend]: no filter is
    applied for [None] and for the empty string. *)
Definition topic_matches (topic : option string) (p : DSAProblemRecommender.Problem) : Prop :=
  match topic with
  | Some t => t = "" \/ lower (DSAProblemRecommender.topic p) = lower t
  | None => True
  end.

(** [[f(x) for x in l]] with the calls made one after the other, the first
    exception ending the run. *)
Fixpoint mapM {A B} (f : A -> M B) (l : list A) : M (list B) :=
  match l with
  | [] => ret []
  | x :: l' => y <- f x ;; ys <- mapM f l' ;; ret (y :: ys)
  end.

(** The keys [process_query] may store under [results]. *)
Definition result_keys : list string :=
  [ "dsa_recommendations"; "resume_analysis"; "learning_resources"; "study_plan" ].

(** The two lists of [LearningResourceAgent.resources]. *)
Definition system_design_resources : list LearningResourceAgent.Resource :=
  [ LearningResourceAgent.mkResource "System Design Primer (GitHub)" "Article" "Beginner";
    LearningResourceAgent.mkResource "ByteByteGo" "Video" "All levels" ].

(** The key under which [LearningResourceAgent.recommend] looks a topic up. *)
Definition topic_key (topic : string) : string := replace " " "_" (lower topic).

(** The activities of every week of a plan. *)
Definition weekly_activities : list string :=
  [ "Practice coding problems"; "Mock interviews"; "Resume review" ].

(** Whether a character, and a text, is ASCII. *)
Definition is_ascii_char (c : ascii) : bool := (N_of_ascii c <? 128)%N.

Definition is_ascii (s : string) : bool :=
  forallb is_ascii_char (list_ascii_of_string s).

(** [t'] has every ASCII word that [t] starts with, and every ASCII word
    that occurs in [t]. *)
Definition ascii_le (t t' : string) : Prop :=
  (forall p, is_ascii p = true -> startswith p t = true -> startswith p t' = true) /\
  (forall k, is_ascii k = true -> str_in k t = true -> str_in k t' = true).

(** [t'] has every ASCII word that occurs in [t]. *)
Definition occurs_le (t t' : string) : Prop :=
  forall k, is_ascii k = true -> str_in k t = true -> str_in k t' = true.

(** How [lower] treats the head of a text: as the Kelvin sign, as the dotted
    capital I, or character by character. *)
Inductive head_kind (c : ascii) (s : string) : Prop :=
| head_kelvin (s3 : string) (E : String c s = KELVIN_SIGN +:+ s3)
| head_dotted (s2 : string) (E : String c s = CAPITAL_I_WITH_DOT_ABOVE +:+ s2)
| head_plain (E : lower (String c s) = String (lower_char c) (lower s))
             (Hk : forall s3, String c s <> KELVIN_SIGN +:+ s3)
             (Hd : forall s2, String c s <> CAPITAL_I_WITH_DOT_ABOVE +:+ s2).

(** * Properties *)

(** ** Strings *)

Lemma startswith_spec (p s : string) :
  startswith p s = true <-> exists post, s = p +:+ post.
Proof.
  revert s; induction p as [|a p IH]; intros s; simpl.
  - split; [intros _; exists s; reflexivity | reflexivity].
  - destruct s as [|b s].
    + split; [discriminate | intros [post H]; discriminate].
    + destruct (Ascii.eqb_spec a b) as [->|Hne].
      * rewrite IH. split; intros [post H]; exists post.
        -- by rewrite H.
        -- by injection H.
      * split; [discriminate | intros [post H]; injection H; congruence].
Qed.

(** The test [sub in s] holds exactly when [s] splits around [sub]. *)
Lemma str_in_spec (sub s : string) :
  str_in sub s = true <-> is_substring sub s.
Proof.
  unfold is_substring.
  induction s as [|c s IH]; simpl; rewrite orb_true_iff, startswith_spec.
  - split.
    + intros [[post H]|H]; [|discriminate]. by exists "", post.
    + intros (pre & post & H). left. destruct pre as [|a pre]; [|discriminate].
      by exists post.
  - rewrite IH. split.
    + intros [[post H]|(pre & post & H)].
      * by exists "", post.
      * exists (String c pre), post. simpl. by rewrite H.
    + intros (pre & post & H). destruct pre as [|a pre].
      * left. by exists post.
      * right. exists pre, post. simpl in H. by injection H.
Qed.

Lemma str_in_false (sub s : string) :
  str_in sub s = false <-> ~ is_substring sub s.
Proof.
  rewrite <- str_in_spec. destruct (str_in sub s); split; congruence.
Qed.

(** ** The monad *)

Lemma bind_ok {A B} (m : M A) (k : A -> M B) (w w' : World) (a : A) :
  m w = (Ok a, w') -> bind m k w = k a w'.
Proof. intros H. unfold bind. by rewrite H. Qed.

Lemma log_more_nil (w : World) : log_more [] w = w.
Proof. destruct w; unfold log_more; simpl. by rewrite app_nil_r. Qed.

(** ** The tools *)

Lemma recommend_problems_run (level : string) (w : World) :
  DSAProblemRecommender.recommend level None w =
  (Ok (catalog level),
   log_more [ "Recommended " +:+ pretty (len (catalog level))
              +:+ " problems for level: " +:+ level ] w).
Proof. reflexivity. Qed.

Lemma ats_keywords_technical_skills :
  ResumeAnalyzer.ats_keywords !! "technical_skills" = Some technical_skills.
Proof. vm_compute. reflexivity. Qed.

Lemma analyze_run (resume_text target_role : string) (w : World) :
  ResumeAnalyzer.analyze resume_text target_role w =
  (Ok (ResumeAnalyzer.mkAnalysis
         (Z.min 100 (matched_count resume_text * 5 + 20))
         {[ "technical_skills" := found_tech resume_text ]}
         (if matched_count resume_text <? 5
          then [ "Add more technical skills relevant to the role" ] else [])
         (if list_truthy (found_tech resume_text)
          then [ "Found " +:+ pretty (matched_count resume_text)
                 +:+ " relevant technical skills" ]
          else [])),
   log_more [ "Resume analyzed. ATS Score: "
              +:+ pretty (Z.min 100 (matched_count resume_text * 5 + 20)) ] w).
Proof.
  unfold ResumeAnalyzer.analyze, dict_getitem.
  rewrite ats_keywords_technical_skills.
  reflexivity.
Qed.

Lemma found_tech_sample : found_tech "Sample resume text" = [].
Proof. vm_compute. reflexivity. Qed.

Lemma analyze_sample_run (w : World) :
  ResumeAnalyzer.analyze "Sample resume text" ResumeAnalyzer.default_target_role w =
  (Ok sample_analysis, log_more [ "Resume analyzed. ATS Score: 20" ] w).
Proof.
  rewrite analyze_run. unfold matched_count. rewrite found_tech_sample. reflexivity.
Qed.

Lemma recommend_resources_dsa_run (w : World) :
  LearningResourceAgent.recommend "dsa" LearningResourceAgent.default_level w =
  (Ok dsa_resources, log_more [ "Recommended 2 resources for dsa" ] w).
Proof.
  unfold LearningResourceAgent.recommend.
  assert (LearningResourceAgent.resources !! replace " " "_" (lower "dsa")
          = Some dsa_resources) as -> by (vm_compute; reflexivity).
  reflexivity.
Qed.

(** ** The study planner *)

Section Planner.

Import StudyPlannerAgent.

Variable focus_areas : list string.
Hypothesis focus_areas_nonempty : focus_areas <> [].

Lemma len_focus_areas_pos : 0 < len focus_areas.
Proof. unfold len. destruct focus_areas; [done | simpl; lia]. Qed.

Lemma focus_of_defined (week : Z) : is_Some (focus_of focus_areas week).
Proof.
  unfold focus_of. apply lookup_lt_is_Some.
  pose proof len_focus_areas_pos as Hpos.
  pose proof (Z.mod_pos_bound (week - 1) (len focus_areas) Hpos) as Hb.
  unfold len in *. lia.
Qed.

(** One round of the loop appends the week's entry and raises nothing. *)
Lemma for_week_step (week : Z) (weeks : list Z) (acc : list WeekPlan) (w : World) :
  for_week (week :: weeks) focus_areas acc w =
  for_week weeks focus_areas (acc ++ [week_entry focus_areas week]) w.
Proof.
  pose proof len_focus_areas_pos as Hpos.
  pose proof (Z.mod_pos_bound (week - 1) (len focus_areas) Hpos) as Hb.
  destruct (focus_of_defined week) as [x Hx].
  unfold week_entry. rewrite Hx. unfold focus_of in Hx.
  simpl. unfold py_mod.
  destruct (Z.eqb_spec (len focus_areas) 0) as [E|_]; [lia|].
  unfold bind at 1, ret at 1.
  assert (((week - 1) mod len focus_areas <? 0) = false) as E by (apply Z.ltb_ge; lia).
  unfold getitem. cbv zeta. rewrite !E, Hx. reflexivity.
Qed.

Lemma for_week_run (weeks : list Z) (acc : list WeekPlan) (w : World) :
  for_week weeks focus_areas acc w =
  (Ok (acc ++ map (week_entry focus_areas) weeks)%list, w).
Proof.
  revert acc. induction weeks as [|week weeks IH]; intros acc.
  - simpl. by rewrite app_nil_r.
  - rewrite for_week_step, IH. by rewrite <- app_assoc.
Qed.

Lemma create_plan_run (weeks hours_per_day : Z) (w : World) :
  create_plan weeks focus_areas hours_per_day w =
  (Ok (mkPlan (pretty weeks +:+ " weeks") (pretty hours_per_day +:+ " hours/day")
         (map (week_entry focus_areas) (range 1 (weeks + 1))) []),
   log_more [ "Created " +:+ pretty weeks +:+ "-week study plan" ] w).
Proof.
  unfold create_plan.
  erewrite bind_ok by apply for_week_run.
  reflexivity.
Qed.

End Planner.

Lemma create_plan_demo_run (w : World) :
  StudyPlannerAgent.create_plan 4 ["DSA"; "System Design"]
    StudyPlannerAgent.default_hours_per_day w =
  (Ok four_week_plan, log_more [ "Created 4-week study plan" ] w).
Proof. by rewrite create_plan_run. Qed.

(** ** The coordinator *)

Lemma log_more_log_more (a b : list string) (w : World) :
  log_more b (log_more a w) = log_more (a ++ b) w.
Proof. unfold log_more; cbn [students ticks logged]. by rewrite app_assoc. Qed.

(** One routing step of [process_query]: a tool that returns [v] and logs
    [msgs] is called when the test [c] holds, and its value is stored by
    [store]. *)
Lemma route_step {A} (c : bool) (tool : M A) (v : A) (msgs : list string)
    (store : A -> gmap string ResultValue) (results : gmap string ResultValue)
    (w : World) :
  (forall w0, tool w0 = (Ok v, log_more msgs w0)) ->
  (if c then (x <- tool ;; ret (store x)) else ret results) w =
  (Ok (if c then store v else results), log_more (if c then msgs else []) w).
Proof.
  intros Htool. destruct c.
  - by rewrite (bind_ok _ _ _ _ _ (Htool w)).
  - by rewrite log_more_nil.
Qed.

(** [process_query] never raises; its response and the state it leaves are
    given by [routed_results] and [recorded]. *)
Lemma process_query_run (clock : nat -> string) (student_id query : string) (w : World) :
  process_query clock student_id query w =
  (Ok (mkResponse student_id query (routed_results (lower query))
         "Here are your personalized recommendations."),
   recorded clock student_id query w).
Proof.
  unfold process_query. cbv zeta.
  rewrite (bind_ok _ _ w
             (log_more ["Processing query for student " +:+ student_id] w) tt)
    by reflexivity.
  erewrite bind_ok by reflexivity.
  erewrite bind_ok
    by (apply route_step; intros w0; apply recommend_problems_run).
  erewrite bind_ok
    by (apply route_step; intros w0; apply analyze_sample_run).
  erewrite bind_ok
    by (apply route_step; intros w0; apply recommend_resources_dsa_run).
  erewrite bind_ok
    by (apply route_step; intros w0; apply create_plan_demo_run).
  rewrite !log_more_log_more.
  unfold update_progress, bind, datetime_now_isoformat, set_student, logger_info, ret,
    recorded, routed_messages, query_activity, log_more.
  cbn [students ticks logged].
  destruct (students w !! student_id) as [s|]; reflexivity.
Qed.

Lemma wants_problems_spec (ql : string) :
  wants_problems ql = true <->
  is_substring "problem" ql \/ is_substring "dsa" ql \/ is_substring "algorithm" ql.
Proof.
  unfold wants_problems, any_in. cbn [existsb].
  rewrite !orb_true_iff, !str_in_spec. intuition discriminate.
Qed.

(** Each category writes its own key of [results], and no other. *)
Lemma routed_results_lookup (ql : string) :
  routed_results ql !! "dsa_recommendations" =
    (if wants_problems ql then Some (Problems (catalog (resolved_level ql))) else None) /\
  routed_results ql !! "resume_analysis" =
    (if wants_resume ql then Some (ResumeAnalysis sample_analysis) else None) /\
  routed_results ql !! "learning_resources" =
    (if wants_resources ql then Some (Resources dsa_resources) else None) /\
  routed_results ql !! "study_plan" =
    (if wants_plan ql then Some (StudyPlan four_week_plan) else None).
Proof.
  unfold routed_results.
  destruct (wants_problems ql), (wants_resume ql), (wants_resources ql), (wants_plan ql);
    cbv zeta; repeat split;
    repeat (rewrite lookup_insert_ne by done);
    rewrite ?lookup_insert_eq, ?lookup_empty; reflexivity.
Qed.

Lemma routed_results_none (ql : string) :
  wants_problems ql = false -> wants_resume ql = false ->
  wants_resources ql = false -> wants_plan ql = false ->
  routed_results ql = ∅.
Proof. unfold routed_results. by intros -> -> -> ->. Qed.

(** The line logged by the problem recommender is among the routed ones. *)
Lemma routed_messages_level (student_id ql : string) :
  wants_problems ql = true ->
  In ("Recommended " +:+ pretty (len (catalog (resolved_level ql)))
      +:+ " problems for level: " +:+ resolved_level ql)
     (routed_messages student_id ql).
Proof.
  intros H. unfold routed_messages. rewrite H.
  apply in_or_app. right. apply in_or_app. left. by left.
Qed.

Lemma recorded_logged (clock : nat -> string) (student_id query msg : string) (w : World) :
  In msg (routed_messages student_id (lower query)) ->
  In msg (logged (recorded clock student_id query w)).
Proof.
  intros H. unfold recorded.
  destruct (students w !! student_id); cbn [logged];
    repeat (apply in_or_app; first [ by right | left ]); done.
Qed.

Lemma update_progress_run (clock : nat -> string) (student_id activity : string)
    (details : gmap string string) (w : World) :
  update_progress clock student_id activity details w =
  (Ok tt,
   match students w !! student_id with
   | Some s =>
       mkWorld
         (<[student_id :=
              mkStudent (profile s)
                (progress s ++ [mkActivity activity details (clock (ticks w))])
                (preferences s) (created_at s)]> (students w))
         (S (ticks w))
         (logged w ++ [ "Updated progress for " +:+ student_id +:+ ": " +:+ activity ])
   | None => w
   end).
Proof. unfold update_progress. destruct (students w !! student_id); reflexivity. Qed.

(** ** The router's contract *)

(** C1: for every user id and query, the results of [process_query] hold the
    key "dsa_recommendations" exactly when the lower-cased query contains
    "problem", "dsa" or "algorithm" as a substring. *)
Theorem dsa_recommendations_iff_keyword
    (clock : nat -> string) (u q : string) (w : World) :
  exists r w',
    process_query clock u q w = (Ok r, w') /\
    (is_Some (results r !! "dsa_recommendations") <->
     is_substring "problem" (lower q) \/ is_substring "dsa" (lower q) \/
     is_substring "algorithm" (lower q)).
Proof.
  rewrite process_query_run. eexists _, _. split; [reflexivity|].
  cbn [results]. rewrite <- wants_problems_spec.
  destruct (routed_results_lookup (lower q)) as (-> & _).
  destruct (wants_problems (lower q)); split; intros H; done.
Qed.

(** C2: when the query triggers the problem category, the recommender is
    called with level "easy" if the lower-cased query contains "easy" (also
    when it contains "hard" as well), otherwise with "hard" if it contains
    "hard", otherwise with the default "medium".  The level is read off the
    stored recommendations and off the line the recommender logs. *)
Theorem difficulty_resolution
    (clock : nat -> string) (u q : string) (w : World) :
  is_substring "problem" (lower q) \/ is_substring "dsa" (lower q) \/
  is_substring "algorithm" (lower q) ->
  exists r w' level,
    process_query clock u q w = (Ok r, w') /\
    results r !! "dsa_recommendations" = Some (Problems (catalog level)) /\
    In ("Recommended " +:+ pretty (len (catalog level))
        +:+ " problems for level: " +:+ level) (logged w') /\
    (is_substring "easy" (lower q) -> level = "easy") /\
    (~ is_substring "easy" (lower q) -> is_substring "hard" (lower q) -> level = "hard") /\
    (~ is_substring "easy" (lower q) -> ~ is_substring "hard" (lower q) -> level = "medium").
Proof.
  intros Hq. apply wants_problems_spec in Hq.
  rewrite process_query_run. eexists _, _, (resolved_level (lower q)).
  split; [reflexivity|]. cbn [results].
  destruct (routed_results_lookup (lower q)) as (-> & _). rewrite Hq.
  split; [reflexivity|].
  split; [by apply recorded_logged, routed_messages_level|].
  unfold resolved_level. rewrite <- !str_in_false, <- !str_in_spec.
  destruct (str_in "easy" (lower q)), (str_in "hard" (lower q)); by repeat split.
Qed.

Lemma difficulty_resolution_witness :
  exists r w' level,
    process_query demo_clock "student_001" "Easy or HARD DSA problems" demo_world = (Ok r, w') /\
    results r !! "dsa_recommendations" = Some (Problems (catalog level)) /\
    In ("Recommended " +:+ pretty (len (catalog level))
        +:+ " problems for level: " +:+ level) (logged w') /\
    (is_substring "easy" (lower "Easy or HARD DSA problems") -> level = "easy") /\
    (~ is_substring "easy" (lower "Easy or HARD DSA problems") ->
     is_substring "hard" (lower "Easy or HARD DSA problems") -> level = "hard") /\
    (~ is_substring "easy" (lower "Easy or HARD DSA problems") ->
     ~ is_substring "hard" (lower "Easy or HARD DSA problems") -> level = "medium").
Proof.
  apply (difficulty_resolution demo_clock "student_001" "Easy or HARD DSA problems" demo_world).
  right. left. apply str_in_spec. vm_compute. reflexivity.
Defined.

(** C3: for a student present in the store, one call of [process_query]
    appends exactly one entry to that student's progress list, whatever the
    query matches; the entry's activity is "query" and its details hold the
    query text as given. *)
Theorem process_query_appends_query_record
    (clock : nat -> string) (u q : string) (w : World) (s : Student) :
  students w !! u = Some s ->
  exists r w' a,
    process_query clock u q w = (Ok r, w') /\
    students w' !! u =
      Some (mkStudent (profile s) (progress s ++ [a]) (preferences s) (created_at s)) /\
    activity a = "query" /\
    details a !! "question" = Some q.
Proof.
  intros Hs. rewrite process_query_run.
  eexists _, _, (query_activity clock q (ticks w)). split; [reflexivity|].
  unfold recorded. rewrite Hs. cbn [students].
  split; [by rewrite lookup_insert_eq|].
  split; [reflexivity|].
  unfold query_activity. cbn [details]. by rewrite lookup_insert_eq.
Qed.

Lemma process_query_appends_query_record_witness :
  students demo_world !! "student_001" = Some demo_student /\
  exists r w' a,
    process_query demo_clock "student_001" "easy dsa resume to learn in weeks" demo_world
      = (Ok r, w') /\
    students w' !! "student_001" =
      Some (mkStudent (profile demo_student) (progress demo_student ++ [a])
              (preferences demo_student) (created_at demo_student)) /\
    activity a = "query" /\
    details a !! "question" = Some "easy dsa resume to learn in weeks".
Proof.
  split.
  - vm_compute. reflexivity.
  - apply (process_query_appends_query_record demo_clock "student_001"
             "easy dsa resume to learn in weeks" demo_world demo_student).
    vm_compute. reflexivity.
Defined.

(** C4: for a student id absent from the store, [process_query] raises
    nothing and returns the full response; the context it fetches is the
    empty dict, recording the activity changes nothing, and the stored
    students are the same afterwards, so no entry is created for the id. *)
Theorem process_query_unknown_student
    (clock : nat -> string) (u q : string) (w : World) :
  students w !! u = None ->
  exists r w',
    process_query clock u q w = (Ok r, w') /\
    r = mkResponse u q (routed_results (lower q))
          "Here are your personalized recommendations." /\
    (forall w1, students w1 = students w ->
       get_student_context u w1 = (Ok EmptyDict, w1) /\
       forall a d, update_progress clock u a d w1 = (Ok tt, w1)) /\
    students w' = students w /\
    students w' !! u = None.
Proof.
  intros Hu. rewrite process_query_run. eexists _, _. split; [reflexivity|].
  split; [reflexivity|]. split.
  - intros w1 Hw1. unfold get_student_context. rewrite Hw1, Hu. split; [reflexivity|].
    intros a d. rewrite update_progress_run. by rewrite Hw1, Hu.
  - unfold recorded. rewrite Hu. by cbn [students].
Qed.

Lemma process_query_unknown_student_witness :
  students demo_world !! "student_404" = None /\
  exists r w',
    process_query demo_clock "student_404" "any easy problem?" demo_world = (Ok r, w') /\
    r = mkResponse "student_404" "any easy problem?"
          (routed_results (lower "any easy problem?"))
          "Here are your personalized recommendations." /\
    (forall w1, students w1 = students demo_world ->
       get_student_context "student_404" w1 = (Ok EmptyDict, w1) /\
       forall a d, update_progress demo_clock "student_404" a d w1 = (Ok tt, w1)) /\
    students w' = students demo_world /\
    students w' !! "student_404" = None.
Proof.
  split.
  - vm_compute. reflexivity.
  - apply (process_query_unknown_student demo_clock "student_404" "any easy problem?" demo_world).
    vm_compute. reflexivity.
Defined.

(** C6: the summary of every response is the literal
    "Here are your personalized recommendations.", whichever categories
    matched; a query that matches no keyword set, such as "help me study",
    gets empty results and the same summary. *)
Theorem summary_is_fixed (clock : nat -> string) (u : string) (w : World) :
  (forall q, exists r w',
      process_query clock u q w = (Ok r, w') /\
      summary r = "Here are your personalized recommendations." /\
      (wants_problems (lower q) || wants_resume (lower q) ||
       wants_resources (lower q) || wants_plan (lower q) = false ->
       results r = ∅)) /\
  (exists r w',
      process_query clock u "help me study" w = (Ok r, w') /\
      results r = ∅ /\
      summary r = "Here are your personalized recommendations.").
Proof.
  split.
  - intros q. rewrite process_query_run. eexists _, _.
    split; [reflexivity|]. split; [reflexivity|].
    cbn [results]. rewrite !orb_false_iff. intros [[[? ?] ?] ?].
    by apply routed_results_none.
  - rewrite process_query_run. eexists _, _.
    split; [reflexivity|]. split; [|reflexivity].
    cbn [results]. by apply routed_results_none.
Qed.

(** ** The memory bank *)

(** C5: [add_student id p] followed at once by [get_student_context id]
    returns an entry whose profile is [p] and whose progress list is empty,
    from every state, so also when [id] was present before: the stored entry
    is built anew from [p] and the clock, and nothing of an earlier one
    remains. *)
Theorem add_student_then_get_context
    (clock : nat -> string) (id : string) (p : gmap string Scalar) (w : World) :
  exists s w',
    (add_student clock id p ;; get_student_context id) w = (Ok (Entry s), w') /\
    profile s = p /\
    progress s = [] /\
    s = mkStudent p [] ∅ (clock (ticks w)) /\
    students w' !! id = Some s.
Proof.
  eexists _, _. split.
  - unfold add_student, get_student_context, bind, datetime_now_isoformat,
      set_student, logger_info.
    cbn [students ticks logged]. rewrite lookup_insert_eq. reflexivity.
  - cbn [profile progress students]. by rewrite lookup_insert_eq.
Qed.

(** C9: apart from [add_student] replacing the whole entry of its own id,
    the operations keep every stored progress list as a prefix of the new
    one: [update_progress] adds at most one entry at the end and leaves the
    earlier ones as they were, [get_student_context] leaves the state as it
    is, [add_student] for another id leaves the entry as it is, and
    [process_query] extends a list by at most its one entry. *)
Theorem progress_is_append_only
    (clock : nat -> string) (w : World) (id : string) (s : Student) :
  students w !! id = Some s ->
  (forall u a d, exists w' s',
      update_progress clock u a d w = (Ok tt, w') /\
      students w' !! id = Some s' /\
      progress s `prefix_of` progress s' /\
      (List.length (progress s') <= S (List.length (progress s)))%nat /\
      profile s' = profile s) /\
  (forall u, exists c, get_student_context u w = (Ok c, w)) /\
  (forall u p, u <> id -> exists w',
      add_student clock u p w = (Ok tt, w') /\ students w' !! id = Some s) /\
  (forall u q, exists r w' s',
      process_query clock u q w = (Ok r, w') /\
      students w' !! id = Some s' /\
      progress s `prefix_of` progress s' /\
      (List.length (progress s') <= S (List.length (progress s)))%nat /\
      profile s' = profile s).
Proof.
  intros Hs. split; [|split; [|split]].
  - intros u a d. rewrite update_progress_run.
    destruct (students w !! u) as [su|] eqn:Hu.
    + destruct (decide (u = id)) as [->|Hne].
      * assert (su = s) as -> by congruence.
        eexists _, _. split; [reflexivity|]. cbn [students].
        split; [by rewrite lookup_insert_eq|]. cbn [progress profile].
        split; [by apply prefix_app_r|].
        split; [rewrite length_app; simpl; lia | reflexivity].
      * eexists _, s. split; [reflexivity|]. cbn [students].
        split; [by rewrite lookup_insert_ne|].
        split; [done|]. split; [lia | reflexivity].
    + exists w, s. repeat split; [done | done | lia].
  - intros u. eexists. reflexivity.
  - intros u p Hne. eexists. split; [reflexivity|].
    cbn [students]. by rewrite lookup_insert_ne.
  - intros u q. rewrite process_query_run. unfold recorded.
    destruct (students w !! u) as [su|] eqn:Hu.
    + destruct (decide (u = id)) as [->|Hne].
      * assert (su = s) as -> by congruence.
        eexists _, _, _. split; [reflexivity|]. cbn [students].
        split; [by rewrite lookup_insert_eq|]. cbn [progress profile].
        split; [by apply prefix_app_r|].
        split; [rewrite length_app; simpl; lia | reflexivity].
      * eexists _, _, s. split; [reflexivity|]. cbn [students].
        split; [by rewrite lookup_insert_ne|].
        split; [done|]. split; [lia | reflexivity].
    + eexists _, _, s. split; [reflexivity|]. cbn [students].
      repeat split; [done | done | lia].
Qed.

Lemma progress_is_append_only_witness :
  students final_world !! "student_001" = Some recorded_student /\
  progress recorded_student = [ query_activity demo_clock demo_query 1 ] /\
  (forall u a d, exists w' s',
      update_progress demo_clock u a d final_world = (Ok tt, w') /\
      students w' !! "student_001" = Some s' /\
      progress recorded_student `prefix_of` progress s' /\
      (List.length (progress s') <= S (List.length (progress recorded_student)))%nat /\
      profile s' = profile recorded_student) /\
  (forall u, exists c, get_student_context u final_world = (Ok c, final_world)) /\
  (forall u p, u <> "student_001" -> exists w',
      add_student demo_clock u p final_world = (Ok tt, w') /\
      students w' !! "student_001" = Some recorded_student) /\
  (forall u q, exists r w' s',
      process_query demo_clock u q final_world = (Ok r, w') /\
      students w' !! "student_001" = Some s' /\
      progress recorded_student `prefix_of` progress s' /\
      (List.length (progress s') <= S (List.length (progress recorded_student)))%nat /\
      profile s' = profile recorded_student).
Proof.
  split; [vm_compute; reflexivity|]. split; [reflexivity|].
  apply (progress_is_append_only demo_clock final_world "student_001" recorded_student).
  vm_compute. reflexivity.
Defined.

(** ** The study planner's schedule *)

(** C7: for [weeks >= 1] and a non-empty [focus_areas], [create_plan] returns
    a plan whose weekly schedule has exactly [weeks] entries, and the entry of
    week [k], for [1 <= k <= weeks], carries the week number [k] and the focus
    [focus_areas[(k - 1) mod len(focus_areas)]]. *)
Theorem create_plan_round_robin
    (weeks : Z) (focus_areas : list string) (hours_per_day : Z) (w : World) :
  1 <= weeks ->
  focus_areas <> [] ->
  exists plan w',
    StudyPlannerAgent.create_plan weeks focus_areas hours_per_day w = (Ok plan, w') /\
    len (StudyPlannerAgent.weekly_schedule plan) = weeks /\
    forall k, 1 <= k <= weeks ->
      exists entry,
        StudyPlannerAgent.weekly_schedule plan !! Z.to_nat (k - 1) = Some entry /\
        StudyPlannerAgent.week entry = k /\
        focus_areas !! Z.to_nat ((k - 1) mod len focus_areas)
          = Some (StudyPlannerAgent.focus entry).
Proof.
  intros Hweeks Hne. rewrite (create_plan_run _ Hne).
  eexists _, _. split; [reflexivity|].
  cbn [StudyPlannerAgent.weekly_schedule]. unfold range, len.
  split.
  - rewrite length_map, length_seqZ. lia.
  - intros k Hk. exists (week_entry focus_areas k).
    split.
    + rewrite list_lookup_fmap, lookup_seqZ_lt by lia.
      cbn [fmap option_fmap option_map]. do 2 f_equal. lia.
    + split; [reflexivity|].
      unfold week_entry. cbn [StudyPlannerAgent.focus].
      destruct (focus_of_defined _ Hne k) as [x Hx].
      rewrite Hx. exact Hx.
Qed.

Lemma create_plan_round_robin_witness :
  1 <= 4 /\ ["DSA"; "System Design"] <> [] /\
  exists plan w',
    StudyPlannerAgent.create_plan 4 ["DSA"; "System Design"] 4 boot = (Ok plan, w') /\
    len (StudyPlannerAgent.weekly_schedule plan) = 4 /\
    forall k, 1 <= k <= 4 ->
      exists entry,
        StudyPlannerAgent.weekly_schedule plan !! Z.to_nat (k - 1) = Some entry /\
        StudyPlannerAgent.week entry = k /\
        ["DSA"; "System Design"] !! Z.to_nat ((k - 1) mod len ["DSA"; "System Design"])
          = Some (StudyPlannerAgent.focus entry).
Proof.
  split; [lia|]. split; [discriminate|].
  apply (create_plan_round_robin 4 ["DSA"; "System Design"] 4 boot); [lia | discriminate].
Defined.

(** The plan the router asks for: four weeks over "DSA" and "System Design"
    alternate the two, starting with "DSA". *)
Example create_plan_four_weeks (hours_per_day : Z) (w : World) :
  exists plan w',
    StudyPlannerAgent.create_plan 4 ["DSA"; "System Design"] hours_per_day w = (Ok plan, w') /\
    map StudyPlannerAgent.week (StudyPlannerAgent.weekly_schedule plan) = [1; 2; 3; 4] /\
    map StudyPlannerAgent.focus (StudyPlannerAgent.weekly_schedule plan)
      = ["DSA"; "System Design"; "DSA"; "System Design"].
Proof.
  rewrite create_plan_run by discriminate. eexists _, _.
  split; [reflexivity|]. by vm_compute.
Qed.

(** An empty [focus_areas] makes the first round of the loop divide by
    zero. *)
Example create_plan_no_focus_areas :
  fst (StudyPlannerAgent.create_plan 1 [] 4 boot) = Raise ZeroDivisionError.
Proof. vm_compute. reflexivity. Qed.

(** ** The resume analyzer's score *)

Lemma found_tech_spec (resume_text skill : string) :
  In skill (found_tech resume_text) <->
  In skill technical_skills /\ is_substring skill (lower resume_text).
Proof. unfold found_tech. by rewrite filter_In, str_in_spec. Qed.

Lemma matched_count_bounds (resume_text : string) : 0 <= matched_count resume_text <= 9.
Proof.
  unfold matched_count, found_tech, len.
  pose proof (filter_length_le (fun skill => str_in skill (lower resume_text))
                technical_skills) as H.
  change (List.length technical_skills) with 9%nat in H. lia.
Qed.

(** C8: the score of [analyze] grows with the number of technical-skill
    keywords matched in the text (a text that matches no more keywords than
    another scores no higher), and every score lies between 0 and 100. *)
Theorem ats_score_monotonic
    (t1 t2 role1 role2 : string) (w1 w2 : World) :
  matched_count t1 <= matched_count t2 ->
  exists a1 a2,
    value_of (ResumeAnalyzer.analyze t1 role1) w1 = Some a1 /\
    value_of (ResumeAnalyzer.analyze t2 role2) w2 = Some a2 /\
    ResumeAnalyzer.keyword_analysis a1 !! "technical_skills" = Some (found_tech t1) /\
    ResumeAnalyzer.keyword_analysis a2 !! "technical_skills" = Some (found_tech t2) /\
    ResumeAnalyzer.ats_score a1 <= ResumeAnalyzer.ats_score a2 /\
    0 <= ResumeAnalyzer.ats_score a1 <= 100 /\
    0 <= ResumeAnalyzer.ats_score a2 <= 100.
Proof.
  intros Hle. unfold value_of. rewrite !analyze_run. eexists _, _.
  split; [reflexivity|]. split; [reflexivity|].
  cbn [ResumeAnalyzer.keyword_analysis ResumeAnalyzer.ats_score].
  pose proof (matched_count_bounds t1). pose proof (matched_count_bounds t2).
  rewrite !lookup_singleton_eq. repeat split; lia.
Qed.

Lemma ats_score_monotonic_witness :
  matched_count "Sample resume text" <= matched_count "Python, JavaScript and AWS" /\
  exists a1 a2,
    value_of (ResumeAnalyzer.analyze "Sample resume text" "Software Engineer") boot = Some a1 /\
    value_of (ResumeAnalyzer.analyze "Python, JavaScript and AWS" "Software Engineer") boot
      = Some a2 /\
    ResumeAnalyzer.keyword_analysis a1 !! "technical_skills"
      = Some (found_tech "Sample resume text") /\
    ResumeAnalyzer.keyword_analysis a2 !! "technical_skills"
      = Some (found_tech "Python, JavaScript and AWS") /\
    ResumeAnalyzer.ats_score a1 <= ResumeAnalyzer.ats_score a2 /\
    0 <= ResumeAnalyzer.ats_score a1 <= 100 /\
    0 <= ResumeAnalyzer.ats_score a2 <= 100.
Proof.
  split.
  - by vm_compute.
  - apply (ats_score_monotonic "Sample resume text" "Python, JavaScript and AWS"
             "Software Engineer" "Software Engineer" boot boot).
    by vm_compute.
Defined.

(** C10: the score is at least 20, also when no keyword matches, and at most
    65, because the technical-skill vocabulary has 9 entries; so the cap at
    100 never applies and no text scores 0. *)
Theorem ats_score_range (resume_text target_role : string) (w : World) :
  List.length technical_skills = 9%nat /\
  ResumeAnalyzer.ats_keywords !! "technical_skills" = Some technical_skills /\
  exists a w',
    ResumeAnalyzer.analyze resume_text target_role w = (Ok a, w') /\
    20 <= ResumeAnalyzer.ats_score a <= 65 /\
    ResumeAnalyzer.ats_score a = matched_count resume_text * 5 + 20 /\
    ResumeAnalyzer.ats_score a <> 0.
Proof.
  split; [reflexivity|]. split; [apply ats_keywords_technical_skills|].
  rewrite analyze_run. eexists _, _. split; [reflexivity|].
  cbn [ResumeAnalyzer.ats_score].
  pose proof (matched_count_bounds resume_text). lia.
Qed.

(** Both bounds of the score are met: no match scores 20, all nine score 65. *)
Example ats_score_extremes :
  value_of (ats <- ResumeAnalyzer.analyze "" "Software Engineer" ;;
            ret (ResumeAnalyzer.ats_score ats)) boot = Some 20 /\
  value_of (ats <- ResumeAnalyzer.analyze
                     "Python Java C++ JavaScript SQL React AWS Docker Kubernetes"
                     "Software Engineer" ;;
            ret (ResumeAnalyzer.ats_score ats)) boot = Some 65.
Proof. split; vm_compute; reflexivity. Qed.

(** ** The demonstration run *)

(** The query of [__main__] contains "weeks" and nothing else the router
    looks for: the response holds the study plan alone, and the query is
    recorded for the demo student. *)
Example main_run :
  (results <$> value_of (main demo_clock) boot)
    = Some {[ "study_plan" := StudyPlan four_week_plan ]} /\
  (progress <$> students (world_after (main demo_clock) boot) !! "student_001")
    = Some [ query_activity demo_clock demo_query 1 ] /\
  logged (world_after (main demo_clock) boot) =
    [ "Memory Bank initialized";
      "DSA Problem Recommender initialized";
      "Resume Analyzer initialized";
      "Learning Resource Agent initialized";
      "Study Planner Agent initialized";
      "Coordinator Agent initialized with all specialist agents";
      "Added student: student_001";
      "Processing query for student student_001";
      "Created 4-week study plan";
      "Updated progress for student_001: query" ].
Proof. repeat split; vm_compute; reflexivity. Qed.

(** * Further properties of the tools, the router and the memory bank *)

(** ** Lower-casing and longer texts *)

Lemma is_ascii_cons (c : ascii) (s : string) :
  is_ascii (String c s) = is_ascii_char c && is_ascii s.
Proof. reflexivity. Qed.

Lemma str_in_cons (k : string) (c : ascii) (t : string) :
  str_in k (String c t) = startswith k (String c t) || str_in k t.
Proof. reflexivity. Qed.

Lemma str_in_empty (t : string) : str_in "" t = true.
Proof. by destruct t. Qed.

Lemma startswith_nonascii (p : string) (c : ascii) (t : string) :
  is_ascii p = true -> is_ascii_char c = false ->
  startswith p (String c t) = true -> p = "".
Proof.
  destruct p as [|x p]; [done|]. rewrite is_ascii_cons. intros Hp Hc. simpl.
  destruct (Ascii.eqb_spec x c) as [->|]; [|done].
  rewrite Hc in Hp. done.
Qed.

Lemma str_in_nonascii (k : string) (c : ascii) (t : string) :
  is_ascii k = true -> is_ascii_char c = false ->
  str_in k (String c t) = true -> str_in k t = true.
Proof.
  intros Hk Hc. rewrite str_in_cons, orb_true_iff. intros [H|H]; [|done].
  rewrite (startswith_nonascii _ _ _ Hk Hc H). apply str_in_empty.
Qed.

Lemma ascii_le_refl (t : string) : ascii_le t t.
Proof. by split. Qed.

Lemma ascii_le_occurs (t t' : string) : ascii_le t t' -> occurs_le t t'.
Proof. by intros [_ H]. Qed.

(** The same character in front keeps the order. *)
Lemma ascii_le_cons (c : ascii) (t t' : string) :
  ascii_le t t' -> ascii_le (String c t) (String c t').
Proof.
  intros [Hp Hk]. split.
  - intros [|x p]; [done|]. rewrite is_ascii_cons, andb_true_iff. intros [_ Hpa]. simpl.
    destruct (Ascii.eqb x c); [|done]. by apply Hp.
  - intros k Hka. rewrite !str_in_cons, !orb_true_iff. intros [H|H]; [left|right; by apply Hk].
    destruct k as [|x k]; [done|]. revert Hka H.
    rewrite is_ascii_cons, andb_true_iff. intros [_ Hka]. simpl.
    destruct (Ascii.eqb x c); [|done]. by apply Hp.
Qed.

Lemma occurs_le_cons_r (c : ascii) (t t' : string) :
  occurs_le t t' -> occurs_le t (String c t').
Proof.
  intros H k Hk Hin. rewrite str_in_cons. apply orb_true_iff. right. by apply H.
Qed.

Lemma occurs_le_nonascii_l (c : ascii) (t t' : string) :
  is_ascii_char c = false -> occurs_le t t' -> occurs_le (String c t) t'.
Proof. intros Hc H k Hk Hin. apply H; [done|]. by eapply str_in_nonascii. Qed.

(** A text without ASCII characters is below every text. *)
Lemma ascii_le_nonascii (t t' : string) :
  forallb (fun c => negb (is_ascii_char c)) (list_ascii_of_string t) = true ->
  ascii_le t t'.
Proof.
  intros Ht. split.
  - intros p Hp H. destruct t as [|c t].
    + destruct p; [done|discriminate].
    + simpl in Ht. apply andb_true_iff in Ht as [Hc _]. apply negb_true_iff in Hc.
      by rewrite (startswith_nonascii _ _ _ Hp Hc H).
  - intros k Hk. induction t as [|c t IH].
    + destruct k; [intros _; apply str_in_empty | discriminate].
    + simpl in Ht. apply andb_true_iff in Ht as [Hc Ht]. apply negb_true_iff in Hc.
      intros H. apply (IH Ht). by eapply str_in_nonascii.
Qed.

Lemma lower_kelvin (s : string) : lower (KELVIN_SIGN +:+ s) = String "k" (lower s).
Proof. reflexivity. Qed.

Lemma lower_dotted (s : string) :
  lower (CAPITAL_I_WITH_DOT_ABOVE +:+ s) = String "i" (COMBINING_DOT_ABOVE +:+ lower s).
Proof. reflexivity. Qed.

Lemma kelvin_app (s : string) :
  KELVIN_SIGN +:+ s = String (byte 226) (String (byte 132) (String (byte 170) s)).
Proof. reflexivity. Qed.

Lemma dotted_app (s : string) :
  CAPITAL_I_WITH_DOT_ABOVE +:+ s = String (byte 196) (String (byte 176) s).
Proof. reflexivity. Qed.

Lemma head_cases (c : ascii) (s : string) : head_kind c s.
Proof.
  destruct s as [|c2 s2].
  { apply head_plain; [reflexivity | intros s3 | intros s2];
      rewrite ?kelvin_app, ?dotted_app; congruence. }
  destruct (Ascii.eqb_spec c (byte 196)) as [->|Hc1].
  - destruct (Ascii.eqb_spec c2 (byte 176)) as [->|Hc2].
    + by apply (head_dotted _ _ s2).
    + apply head_plain; [|intros s0; rewrite kelvin_app; intros [=]
                          |intros s0; rewrite dotted_app; congruence].
      cbn [lower]. rewrite (proj2 (Ascii.eqb_neq _ _) Hc2), andb_false_r.
      destruct s2; reflexivity.
  - assert (forall s0, String c (String c2 s2) <> CAPITAL_I_WITH_DOT_ABOVE +:+ s0) as Hd
      by (intros s0; rewrite dotted_app; congruence).
    destruct s2 as [|c3 s3].
    { apply head_plain; [|intros s3; rewrite kelvin_app; congruence | done].
      cbn [lower]. by rewrite (proj2 (Ascii.eqb_neq _ _) Hc1). }
    destruct (Ascii.eqb_spec c (byte 226)) as [->|Hk1];
      [destruct (Ascii.eqb_spec c2 (byte 132)) as [->|Hk2];
       [destruct (Ascii.eqb_spec c3 (byte 170)) as [->|Hk3]|]|].
    + by apply (head_kelvin _ _ s3).
    + apply head_plain; [|intros s0; rewrite kelvin_app; congruence | done].
      cbn [lower]. rewrite (proj2 (Ascii.eqb_neq _ _) Hk3), andb_false_r. reflexivity.
    + apply head_plain; [|intros s0; rewrite kelvin_app; congruence | done].
      cbn [lower]. rewrite (proj2 (Ascii.eqb_neq _ _) Hk2), andb_false_r. reflexivity.
    + apply head_plain; [|intros s0; rewrite kelvin_app; congruence | done].
      cbn [lower]. rewrite (proj2 (Ascii.eqb_neq _ _) Hc1), (proj2 (Ascii.eqb_neq _ _) Hk1).
      reflexivity.
Qed.

Lemma lower_nonlead (c : ascii) (s : string) :
  c <> byte 226 -> c <> byte 196 ->
  lower (String c s) = String (lower_char c) (lower s).
Proof.
  intros H1 H2. destruct (head_cases c s) as [s3 E|s2 E|E _ _]; [| |exact E].
  - rewrite kelvin_app in E. congruence.
  - rewrite dotted_app in E. congruence.
Qed.

Lemma str_app_nil_l (s : string) : "" +:+ s = s.
Proof. reflexivity. Qed.

Lemma str_app_cons (c : ascii) (a s : string) : String c a +:+ s = String c (a +:+ s).
Proof. reflexivity. Qed.

Lemma str_append_assoc (a b c : string) : (a +:+ b) +:+ c = a +:+ (b +:+ c).
Proof.
  induction a as [|x a IH]; [reflexivity|].
  change (String x ((a +:+ b) +:+ c) = String x (a +:+ (b +:+ c))). by rewrite IH.
Qed.

(** Text added behind keeps the ASCII words at the start of the lower-cased
    text and those that occur in it. *)
Lemma lower_app_r_upto (b : string) (n : nat) (s : string) :
  (String.length s <= n)%nat -> ascii_le (lower s) (lower (s +:+ b)).
Proof.
  revert s. induction n as [|n IH]; intros s Hn.
  { destruct s; [|simpl in Hn; lia]. by apply ascii_le_nonascii. }
  destruct s as [|c s1]; [by apply ascii_le_nonascii|].
  simpl in Hn.
  destruct (head_cases c s1) as [s3 E|s2 E|E Hk Hd].
  - rewrite E, str_append_assoc, !lower_kelvin. apply ascii_le_cons, IH.
    apply (f_equal String.length) in E. rewrite kelvin_app in E. simpl in E. lia.
  - rewrite E, str_append_assoc, !lower_dotted. do 3 apply ascii_le_cons. apply IH.
    apply (f_equal String.length) in E. rewrite dotted_app in E. simpl in E. lia.
  - rewrite E. change (String c s1 +:+ b) with (String c (s1 +:+ b)).
    destruct (head_cases c (s1 +:+ b)) as [t3 E'|t2 E'|E' _ _].
    + rewrite kelvin_app in E'. destruct s1 as [|d [|e s']]; rewrite ?str_app_cons, ?str_app_nil_l in E'.
      * injection E' as Ec _. subst c. by apply ascii_le_nonascii.
      * injection E' as Ec Ed _. subst c d.
        rewrite lower_nonlead by done. by apply ascii_le_nonascii.
      * injection E' as Ec Ed Ee _. subst c d e. by destruct (Hk s').
    + rewrite dotted_app in E'. destruct s1 as [|d s']; rewrite ?str_app_cons, ?str_app_nil_l in E'.
      * injection E' as Ec _. subst c. by apply ascii_le_nonascii.
      * injection E' as Ec Ed _. subst c d. by destruct (Hd s').
    + rewrite E'. apply ascii_le_cons, IH. lia.
Qed.

(** Text added in front keeps the ASCII words that occur in the lower-cased
    text. *)
Lemma lower_app_l_upto (s : string) (n : nat) (a : string) :
  (String.length a <= n)%nat -> occurs_le (lower s) (lower (a +:+ s)).
Proof.
  revert a. induction n as [|n IH]; intros a Hn.
  { destruct a; [|simpl in Hn; lia]. by intros k. }
  destruct a as [|c a1]; [by intros k|].
  simpl in Hn. change (String c a1 +:+ s) with (String c (a1 +:+ s)).
  destruct (head_cases c (a1 +:+ s)) as [t3 E|t2 E|E _ _].
  - rewrite E, lower_kelvin. apply occurs_le_cons_r.
    rewrite kelvin_app in E. destruct a1 as [|d [|e a3]]; rewrite ?str_app_cons, ?str_app_nil_l in E.
    + injection E as _ Es. subst s. rewrite !lower_nonlead by done.
      do 2 (apply occurs_le_nonascii_l; [done|]). by intros k.
    + injection E as _ _ Es. subst s. rewrite lower_nonlead by done.
      apply occurs_le_nonascii_l; [done|]. by intros k.
    + injection E as _ _ _ Et. subst t3. apply IH. simpl in Hn. lia.
  - rewrite E, lower_dotted. do 3 apply occurs_le_cons_r.
    rewrite dotted_app in E. destruct a1 as [|d a2]; rewrite ?str_app_cons, ?str_app_nil_l in E.
    + injection E as _ Es. subst s. rewrite lower_nonlead by done.
      apply occurs_le_nonascii_l; [done|]. by intros k.
    + injection E as _ _ Et. subst t2. apply IH. simpl in Hn. lia.
  - rewrite E. apply occurs_le_cons_r, IH. lia.
Qed.

(** An ASCII word that occurs in the lower-cased text occurs in the
    lower-cased form of every text around it. *)
Lemma lower_keeps_word (k s a b : string) :
  is_ascii k = true ->
  str_in k (lower s) = true -> str_in k (lower (a +:+ s +:+ b)) = true.
Proof.
  intros Hk H.
  apply (lower_app_l_upto (s +:+ b) _ a (Nat.le_refl _)); [done|].
  by apply (ascii_le_occurs _ _ (lower_app_r_upto b _ s (Nat.le_refl _))).
Qed.

Lemma any_in_lower_extend (words : list string) (s a b : string) :
  forallb is_ascii words = true ->
  any_in words (lower s) = true -> any_in words (lower (a +:+ s +:+ b)) = true.
Proof.
  unfold any_in. rewrite forallb_forall, !existsb_exists.
  intros Hw (word & Hin & H). exists word. split; [done|].
  apply lower_keeps_word; auto.
Qed.

(** ** The problem recommender *)

Lemma problems_lookup (k : string) :
  DSAProblemRecommender.problems !! k =
  if decide (k = "easy") then Some easy_problems
  else if decide (k = "medium") then Some medium_problems
  else if decide (k = "hard") then Some hard_problems
  else None.
Proof.
  unfold DSAProblemRecommender.problems.
  repeat (rewrite lookup_insert; case_decide; subst; [by repeat case_decide|]).
  rewrite lookup_singleton. by repeat case_decide.
Qed.

Lemma catalog_cases (level : string) :
  (lower level = "easy" /\ catalog level = easy_problems) \/
  (lower level = "medium" /\ catalog level = medium_problems) \/
  (lower level = "hard" /\ catalog level = hard_problems) \/
  (lower level <> "easy" /\ lower level <> "medium" /\ lower level <> "hard" /\
   catalog level = []).
Proof.
  unfold catalog. rewrite problems_lookup.
  repeat case_decide; cbn [default from_option]; tauto.
Qed.

Lemma catalog_difficulty (level : string) (p : DSAProblemRecommender.Problem) :
  In p (catalog level) -> lower (DSAProblemRecommender.difficulty p) = lower level.
Proof.
  destruct (catalog_cases level) as [[-> ->]|[[-> ->]|[[-> ->]|(_ & _ & _ & ->)]]];
    cbn [In]; intros H; repeat (destruct H as [<-|H]; [reflexivity|]); destruct H.
Qed.

Lemma recommend_topic_run (level : string) (topic : option string) (w : World) :
  exists ps,
    DSAProblemRecommender.recommend level topic w =
      (Ok ps, log_more [ "Recommended " +:+ pretty (len ps)
                         +:+ " problems for level: " +:+ level ] w) /\
    forall p, In p ps <-> In p (catalog level) /\ topic_matches topic p.
Proof.
  unfold DSAProblemRecommender.recommend. fold (catalog level).
  destruct topic as [[|c t]|]; cbn [str_truthy topic_matches].
  - eexists. split; [reflexivity|]. intros p. tauto.
  - eexists. split; [reflexivity|]. intros p.
    rewrite filter_In, String.eqb_eq. intuition discriminate.
  - eexists. split; [reflexivity|]. intros p. tauto.
Qed.

(** X1: [recommend] raises nothing for a level it does not know: when the
    lower-cased level is none of "easy", "medium" and "hard", the list
    returned is empty, with or without a topic, and the line logged counts 0
    problems. *)
Theorem recommend_unknown_level
    (level : string) (topic : option string) (w : World) :
  lower level <> "easy" -> lower level <> "medium" -> lower level <> "hard" ->
  DSAProblemRecommender.recommend level topic w =
  (Ok [], log_more [ "Recommended 0 problems for level: " +:+ level ] w).
Proof.
  intros H1 H2 H3.
  destruct (recommend_topic_run level topic w) as (ps & -> & Hps).
  destruct (catalog_cases level) as [[? _]|[[? _]|[[? _]|(_ & _ & _ & Hnil)]]]; try done.
  rewrite Hnil in Hps.
  destruct ps as [|p ps]; [reflexivity|].
  destruct (proj1 (Hps p)) as [[] _]. by left.
Qed.

Lemma recommend_unknown_level_witness :
  DSAProblemRecommender.recommend "Expert" (Some "Graph") boot =
  (Ok [], log_more [ "Recommended 0 problems for level: " +:+ "Expert" ] boot).
Proof.
  apply (recommend_unknown_level "Expert" (Some "Graph") boot); by vm_compute.
Defined.

(** X2: every problem that [recommend] returns has the difficulty that was
    asked for, compared without case, and the levels "easy", "medium" and
    "hard" are recognised in any case ("EASY", "Hard", ...). *)
Theorem recommend_difficulty_matches_level
    (level : string) (topic : option string) (w : World) :
  exists ps w',
    DSAProblemRecommender.recommend level topic w = (Ok ps, w') /\
    (forall p, In p ps -> lower (DSAProblemRecommender.difficulty p) = lower level) /\
    (topic = None ->
     (lower level = "easy" -> ps = easy_problems) /\
     (lower level = "medium" -> ps = medium_problems) /\
     (lower level = "hard" -> ps = hard_problems)).
Proof.
  destruct (recommend_topic_run level topic w) as (ps & Hrun & Hps).
  exists ps. eexists. split; [exact Hrun|]. split.
  - intros p Hp. apply catalog_difficulty. by apply Hps.
  - intros ->. rewrite recommend_problems_run in Hrun.
    injection Hrun as <- _.
    destruct (catalog_cases level) as [[E ->]|[[E ->]|[[E ->]|(? & ? & ? & ->)]]];
      repeat split; intros E'; try done; rewrite E in E'; discriminate.
Qed.

(** X3: the topic filter of [recommend]: a problem is returned exactly when
    it is in the list of the level and its topic equals the given one up to
    case; with no topic, or with the empty string as topic, the whole list of
    the level is returned. *)
Theorem recommend_topic_filter
    (level : string) (topic : option string) (w : World) :
  exists ps w',
    DSAProblemRecommender.recommend level topic w = (Ok ps, w') /\
    (forall p, In p ps <-> In p (catalog level) /\ topic_matches topic p) /\
    (topic = None \/ topic = Some "" -> ps = catalog level) /\
    (List.length ps <= List.length (catalog level))%nat.
Proof.
  destruct (recommend_topic_run level topic w) as (ps & Hrun & Hps).
  exists ps. eexists. split; [exact Hrun|]. split; [exact Hps|]. split.
  - intros [->| ->]; revert Hrun; unfold DSAProblemRecommender.recommend;
      fold (catalog level); cbn [str_truthy]; intros Hrun; by injection Hrun as <- _.
  - revert Hrun. unfold DSAProblemRecommender.recommend. fold (catalog level).
    destruct topic as [[|c t]|]; cbn [str_truthy]; intros Hrun; injection Hrun as <- _;
      [lia | apply filter_length_le | lia].
Qed.

(** ** The router's other categories *)

Lemma wants_resume_spec (ql : string) :
  wants_resume ql = true <->
  is_substring "resume" ql \/ is_substring "cv" ql \/ is_substring "ats" ql.
Proof.
  unfold wants_resume, any_in. cbn [existsb].
  rewrite !orb_true_iff, !str_in_spec. intuition discriminate.
Qed.

Lemma wants_resources_spec (ql : string) :
  wants_resources ql = true <->
  is_substring "learn" ql \/ is_substring "resource" ql \/ is_substring "study material" ql.
Proof.
  unfold wants_resources, any_in. cbn [existsb].
  rewrite !orb_true_iff, !str_in_spec. intuition discriminate.
Qed.

Lemma wants_plan_spec (ql : string) :
  wants_plan ql = true <->
  is_substring "plan" ql \/ is_substring "schedule" ql \/ is_substring "weeks" ql.
Proof.
  unfold wants_plan, any_in. cbn [existsb].
  rewrite !orb_true_iff, !str_in_spec. intuition discriminate.
Qed.

Lemma is_Some_if {A} (c : bool) (v : A) : is_Some (if c then Some v else None) <-> c = true.
Proof. destruct c; split; intros H; done. Qed.

Lemma routed_results_other (ql k : string) :
  ~ In k result_keys -> routed_results ql !! k = None.
Proof.
  unfold result_keys. cbn [In]. intros Hk. unfold routed_results.
  destruct (wants_problems ql), (wants_resume ql), (wants_resources ql), (wants_plan ql);
    cbv zeta; repeat (rewrite lookup_insert_ne by (intros <-; tauto));
    apply lookup_empty.
Qed.

Lemma catalog_resolved_level (ql : string) :
  catalog (resolved_level ql) <> [] /\
  (str_in "easy" ql = true -> catalog (resolved_level ql) = easy_problems) /\
  (str_in "easy" ql = false -> str_in "hard" ql = true ->
   catalog (resolved_level ql) = hard_problems) /\
  (str_in "easy" ql = false -> str_in "hard" ql = false ->
   catalog (resolved_level ql) = medium_problems).
Proof.
  unfold resolved_level.
  destruct (str_in "easy" ql), (str_in "hard" ql); by repeat split.
Qed.

(** X4: when a query triggers the problem category, the list stored under
    "dsa_recommendations" is never empty and holds problems of one difficulty
    only: the three "Easy" ones if the lower-cased query contains "easy",
    otherwise the two "Hard" ones if it contains "hard", otherwise the three
    "Medium" ones. *)
Theorem routed_problems_by_difficulty
    (clock : nat -> string) (u q : string) (w : World) :
  is_substring "problem" (lower q) \/ is_substring "dsa" (lower q) \/
  is_substring "algorithm" (lower q) ->
  exists r w' ps,
    process_query clock u q w = (Ok r, w') /\
    results r !! "dsa_recommendations" = Some (Problems ps) /\
    ps <> [] /\
    (is_substring "easy" (lower q) ->
     ps = easy_problems /\
     forall p, In p ps -> DSAProblemRecommender.difficulty p = "Easy") /\
    (~ is_substring "easy" (lower q) -> is_substring "hard" (lower q) ->
     ps = hard_problems /\
     forall p, In p ps -> DSAProblemRecommender.difficulty p = "Hard") /\
    (~ is_substring "easy" (lower q) -> ~ is_substring "hard" (lower q) ->
     ps = medium_problems /\
     forall p, In p ps -> DSAProblemRecommender.difficulty p = "Medium").
Proof.
  intros Hq. apply wants_problems_spec in Hq.
  rewrite process_query_run. eexists _, _, _. split; [reflexivity|].
  cbn [results]. destruct (routed_results_lookup (lower q)) as (-> & _). rewrite Hq.
  split; [reflexivity|].
  destruct (catalog_resolved_level (lower q)) as (Hne & He & Hh & Hm).
  rewrite <- !str_in_false, <- !str_in_spec.
  split; [exact Hne|]. split; [|split].
  - intros E. rewrite (He E). split; [reflexivity|].
    cbn [In]. intros p H. repeat (destruct H as [<-|H]; [reflexivity|]). destruct H.
  - intros E E'. rewrite (Hh E E'). split; [reflexivity|].
    cbn [In]. intros p H. repeat (destruct H as [<-|H]; [reflexivity|]). destruct H.
  - intros E E'. rewrite (Hm E E'). split; [reflexivity|].
    cbn [In]. intros p H. repeat (destruct H as [<-|H]; [reflexivity|]). destruct H.
Qed.

Lemma routed_problems_by_difficulty_witness :
  exists r w' ps,
    process_query demo_clock "student_001" "I need easy DSA problems" demo_world = (Ok r, w') /\
    results r !! "dsa_recommendations" = Some (Problems ps) /\
    ps <> [] /\
    (is_substring "easy" (lower "I need easy DSA problems") ->
     ps = easy_problems /\
     forall p, In p ps -> DSAProblemRecommender.difficulty p = "Easy") /\
    (~ is_substring "easy" (lower "I need easy DSA problems") ->
     is_substring "hard" (lower "I need easy DSA problems") ->
     ps = hard_problems /\
     forall p, In p ps -> DSAProblemRecommender.difficulty p = "Hard") /\
    (~ is_substring "easy" (lower "I need easy DSA problems") ->
     ~ is_substring "hard" (lower "I need easy DSA problems") ->
     ps = medium_problems /\
     forall p, In p ps -> DSAProblemRecommender.difficulty p = "Medium").
Proof.
  apply (routed_problems_by_difficulty demo_clock "student_001"
           "I need easy DSA problems" demo_world).
  right. left. apply str_in_spec. vm_compute. reflexivity.
Defined.

(** X5: the results hold "resume_analysis" exactly when the lower-cased query
    contains "resume", "cv" or "ats", and the analysis stored is then always
    the one of the fixed text "Sample resume text", whatever the query says:
    score 20, no technical skill found, no strength, one suggestion. *)
Theorem routed_resume_analysis (clock : nat -> string) (u q : string) (w : World) :
  exists r w',
    process_query clock u q w = (Ok r, w') /\
    (is_Some (results r !! "resume_analysis") <->
     is_substring "resume" (lower q) \/ is_substring "cv" (lower q) \/
     is_substring "ats" (lower q)) /\
    (forall v, results r !! "resume_analysis" = Some v ->
       exists a, v = ResumeAnalysis a /\
         value_of (ResumeAnalyzer.analyze "Sample resume text"
                     ResumeAnalyzer.default_target_role) w = Some a /\
         ResumeAnalyzer.ats_score a = 20 /\
         ResumeAnalyzer.keyword_analysis a !! "technical_skills" = Some [] /\
         ResumeAnalyzer.strengths a = [] /\
         ResumeAnalyzer.suggestions a = [ "Add more technical skills relevant to the role" ]).
Proof.
  rewrite process_query_run. eexists _, _. split; [reflexivity|].
  cbn [results]. destruct (routed_results_lookup (lower q)) as (_ & -> & _).
  rewrite <- wants_resume_spec. split; [apply is_Some_if|].
  intros v Hv. destruct (wants_resume (lower q)); [|discriminate].
  injection Hv as <-. exists sample_analysis. split; [reflexivity|].
  split; [|by repeat split].
  unfold value_of. by rewrite (analyze_sample_run w).
Qed.

(** X6: the results hold "learning_resources" exactly when the lower-cased
    query contains "learn", "resource" or "study material", and the list
    stored is then always the one of the topic "dsa", whatever topic the
    query names. *)
Theorem routed_learning_resources (clock : nat -> string) (u q : string) (w : World) :
  exists r w',
    process_query clock u q w = (Ok r, w') /\
    (is_Some (results r !! "learning_resources") <->
     is_substring "learn" (lower q) \/ is_substring "resource" (lower q) \/
     is_substring "study material" (lower q)) /\
    (forall v, results r !! "learning_resources" = Some v ->
       exists rs, v = Resources rs /\
         LearningResourceAgent.resources !! "dsa" = Some rs /\
         map LearningResourceAgent.title rs = [ "LeetCode Patterns"; "Neetcode.io" ]).
Proof.
  rewrite process_query_run. eexists _, _. split; [reflexivity|].
  cbn [results]. destruct (routed_results_lookup (lower q)) as (_ & _ & -> & _).
  rewrite <- wants_resources_spec. split; [apply is_Some_if|].
  intros v Hv. destruct (wants_resources (lower q)); [|discriminate].
  injection Hv as <-. exists dsa_resources. split; [reflexivity|].
  split; [vm_compute; reflexivity | reflexivity].
Qed.

(** X7: the results hold "study_plan" exactly when the lower-cased query
    contains "plan", "schedule" or "weeks", and the plan stored is then always
    the one for 4 weeks at 4 hours a day over "DSA" and "System Design",
    whatever number of weeks the query names. *)
Theorem routed_study_plan (clock : nat -> string) (u q : string) (w : World) :
  exists r w',
    process_query clock u q w = (Ok r, w') /\
    (is_Some (results r !! "study_plan") <->
     is_substring "plan" (lower q) \/ is_substring "schedule" (lower q) \/
     is_substring "weeks" (lower q)) /\
    (forall v, results r !! "study_plan" = Some v ->
       exists plan, v = StudyPlan plan /\
         StudyPlannerAgent.duration plan = "4 weeks" /\
         StudyPlannerAgent.daily_commitment plan = "4 hours/day" /\
         map StudyPlannerAgent.week (StudyPlannerAgent.weekly_schedule plan) = [1; 2; 3; 4] /\
         map StudyPlannerAgent.focus (StudyPlannerAgent.weekly_schedule plan)
           = [ "DSA"; "System Design"; "DSA"; "System Design" ]).
Proof.
  rewrite process_query_run. eexists _, _. split; [reflexivity|].
  cbn [results]. destruct (routed_results_lookup (lower q)) as (_ & _ & _ & ->).
  rewrite <- wants_plan_spec. split; [apply is_Some_if|].
  intros v Hv. destruct (wants_plan (lower q)); [|discriminate].
  injection Hv as <-. exists four_week_plan. split; [reflexivity|].
  by vm_compute.
Qed.

(** X8: [process_query] stores nothing under any key other than
    "dsa_recommendations", "resume_analysis", "learning_resources" and
    "study_plan", so the results never hold more than four entries; and the
    response repeats the student id and the query as they were given. *)
Theorem results_keys_are_the_four (clock : nat -> string) (u q : string) (w : World) :
  exists r w',
    process_query clock u q w = (Ok r, w') /\
    (forall k, is_Some (results r !! k) -> In k result_keys) /\
    (size (results r) <= 4)%nat /\
    student_id r = u /\ query r = q.
Proof.
  rewrite process_query_run. eexists _, _. split; [reflexivity|].
  cbn [results student_id query]. split; [|split; [|done]].
  - intros k Hk. destruct (decide (In k result_keys)) as [|Hn]; [done|].
    rewrite (routed_results_other _ _ Hn) in Hk. by destruct Hk.
  - unfold routed_results.
    destruct (wants_problems (lower q)), (wants_resume (lower q)),
      (wants_resources (lower q)), (wants_plan (lower q)); cbv zeta;
      repeat (rewrite map_size_insert_None
                by (repeat (rewrite lookup_insert_ne by done); apply lookup_empty));
      rewrite map_size_empty; lia.
Qed.

(** ** Queries that contain one another, and queries that differ in case *)

(** X9: a query placed inside a longer text loses no category: every key
    that the results of [q] hold is also held by the results of
    [pre + q + post]. *)
Theorem longer_query_keeps_categories
    (clock : nat -> string) (u pre q post : string) (w w0 : World) :
  exists r1 r2 w1 w2,
    process_query clock u q w = (Ok r1, w1) /\
    process_query clock u (pre +:+ q +:+ post) w0 = (Ok r2, w2) /\
    forall k, is_Some (results r1 !! k) -> is_Some (results r2 !! k).
Proof.
  rewrite !process_query_run. eexists _, _, _, _.
  split; [reflexivity|]. split; [reflexivity|].
  cbn [results]. intros k Hk.
  destruct (decide (In k result_keys)) as [Hin|Hn];
    [|rewrite (routed_results_other _ _ Hn) in Hk; by destruct Hk].
  destruct (routed_results_lookup (lower q)) as (A1 & A2 & A3 & A4).
  destruct (routed_results_lookup (lower (pre +:+ q +:+ post)))
    as (B1 & B2 & B3 & B4).
  unfold result_keys in Hin. cbn [In] in Hin.
  destruct Hin as [<-|[<-|[<-|[<-|[]]]]].
  - rewrite A1 in Hk. rewrite B1. apply is_Some_if. apply is_Some_if in Hk.
    by apply any_in_lower_extend.
  - rewrite A2 in Hk. rewrite B2. apply is_Some_if. apply is_Some_if in Hk.
    by apply any_in_lower_extend.
  - rewrite A3 in Hk. rewrite B3. apply is_Some_if. apply is_Some_if in Hk.
    by apply any_in_lower_extend.
  - rewrite A4 in Hk. rewrite B4. apply is_Some_if. apply is_Some_if in Hk.
    by apply any_in_lower_extend.
Qed.



(** ** What the operations leave alone *)

Lemma dom_insert_present (m : gmap string Student) (id : string) (s s' : Student) :
  m !! id = Some s -> dom (<[id := s']> m) = dom m.
Proof.
  intros H. apply dom_insert_lookup_L. by exists s.
Qed.

(** X11: [process_query] creates and removes no student: the set of stored
    ids is the same afterwards, and the entry of every id other than the one
    of the call is left exactly as it was. *)
Theorem process_query_keeps_other_students
    (clock : nat -> string) (u q : string) (w : World) :
  exists r w',
    process_query clock u q w = (Ok r, w') /\
    dom (students w') = dom (students w) /\
    forall id, id <> u -> students w' !! id = students w !! id.
Proof.
  rewrite process_query_run. eexists _, _. split; [reflexivity|].
  unfold recorded. destruct (students w !! u) as [s|] eqn:Hu; cbn [students].
  - split; [by eapply dom_insert_present|].
    intros id Hid. by rewrite lookup_insert_ne.
  - done.
Qed.

(** X12: [process_query] reads the clock twice for a stored student and once
    for an unknown one: the first reading becomes the "timestamp" of the
    details, and for a stored student the next reading becomes the timestamp
    of the progress entry itself. *)
Theorem process_query_clock_readings
    (clock : nat -> string) (u q : string) (w : World) :
  exists r w',
    process_query clock u q w = (Ok r, w') /\
    ticks w' = match students w !! u with
               | Some _ => S (S (ticks w))
               | None => S (ticks w)
               end /\
    forall s, students w !! u = Some s ->
      exists s' a,
        students w' !! u = Some s' /\
        last (progress s') = Some a /\
        details a !! "timestamp" = Some (clock (ticks w)) /\
        timestamp a = clock (S (ticks w)).
Proof.
  rewrite process_query_run. eexists _, _. split; [reflexivity|].
  unfold recorded. destruct (students w !! u) as [s|] eqn:Hu; cbn [ticks students].
  - split; [reflexivity|]. intros s0 [= <-].
    eexists _, (query_activity clock q (ticks w)).
    split; [by rewrite lookup_insert_eq|]. cbn [progress].
    split; [by rewrite last_snoc|].
    unfold query_activity. cbn [details timestamp].
    split; [|reflexivity].
    rewrite lookup_insert_ne by done. by rewrite lookup_insert_eq.
  - split; [reflexivity|]. intros s [=].
Qed.

(** X13: queries made one after the other for a stored student are recorded
    in the order of the calls: after the queries [qs] the progress list is the
    old one followed by one "query" entry per query, whose questions are [qs]
    in order, and the responses come back in the same order. *)
Theorem queries_are_recorded_in_order
    (clock : nat -> string) (u : string) (qs : list string) (w : World) (s : Student) :
  students w !! u = Some s ->
  exists rs w' new,
    mapM (process_query clock u) qs w = (Ok rs, w') /\
    students w' !! u =
      Some (mkStudent (profile s) (progress s ++ new) (preferences s) (created_at s)) /\
    map (fun a => details a !! "question") new = map Some qs /\
    Forall (fun a => activity a = "query") new /\
    map query rs = qs.
Proof.
  revert w s. induction qs as [|q qs IH]; intros w s Hs.
  - exists [], w, []. cbn [mapM ret map]. rewrite app_nil_r.
    destruct s. by repeat split.
  - cbn [mapM]. rewrite (bind_ok _ _ _ _ _ (process_query_run clock u q w)).
    assert (students (recorded clock u q w) !! u =
            Some (mkStudent (profile s) (progress s ++ [query_activity clock q (ticks w)])
                    (preferences s) (created_at s))) as Hs'.
    { unfold recorded. rewrite Hs. cbn [students]. by rewrite lookup_insert_eq. }
    destruct (IH _ _ Hs') as (rs & w' & new & Hrun & Hw' & Hq & Hall & Hrs).
    rewrite (bind_ok _ _ _ _ _ Hrun).
    eexists _, w', (query_activity clock q (ticks w) :: new).
    split; [reflexivity|].
    cbn [profile progress preferences created_at] in Hw'.
    rewrite <- app_assoc in Hw'. split; [exact Hw'|].
    cbn [map]. split; [|split].
    + rewrite Hq. unfold query_activity. cbn [details].
      by rewrite lookup_insert_eq.
    + by constructor.
    + cbn [query]. by rewrite Hrs.
Qed.

Lemma queries_are_recorded_in_order_witness :
  students demo_world !! "student_001" = Some demo_student /\
  exists rs w' new,
    mapM (process_query demo_clock "student_001")
      [ "easy dsa"; "help me study"; "a plan for 3 weeks" ] demo_world = (Ok rs, w') /\
    students w' !! "student_001" =
      Some (mkStudent (profile demo_student) (progress demo_student ++ new)
              (preferences demo_student) (created_at demo_student)) /\
    map (fun a => details a !! "question") new
      = map Some [ "easy dsa"; "help me study"; "a plan for 3 weeks" ] /\
    Forall (fun a => activity a = "query") new /\
    map query rs = [ "easy dsa"; "help me study"; "a plan for 3 weeks" ].
Proof.
  split.
  - vm_compute. reflexivity.
  - apply (queries_are_recorded_in_order demo_clock "student_001"
             [ "easy dsa"; "help me study"; "a plan for 3 weeks" ] demo_world demo_student).
    vm_compute. reflexivity.
Defined.

(** ** The memory bank, one operation after another *)

(** X14: what [update_progress] records for a stored student is what
    [get_student_context] returns next: the same profile, preferences and
    creation time, and the progress list with one entry more, which carries
    the activity and the details as given and the clock's reading; the
    entries of the other ids are left as they were. *)
Theorem update_progress_then_get_context
    (clock : nat -> string) (id a : string) (d : gmap string string)
    (w : World) (s : Student) :
  students w !! id = Some s ->
  exists w',
    (update_progress clock id a d ;; get_student_context id) w =
      (Ok (Entry (mkStudent (profile s)
                    (progress s ++ [mkActivity a d (clock (ticks w))])
                    (preferences s) (created_at s))), w') /\
    dom (students w') = dom (students w) /\
    forall id', id' <> id -> students w' !! id' = students w !! id'.
Proof.
  intros Hs. eexists. split.
  - rewrite (bind_ok _ _ _ _ _ (update_progress_run clock id a d w)).
    rewrite Hs. unfold get_student_context. cbn [students].
    rewrite lookup_insert_eq. reflexivity.
  - cbn [students]. split; [by eapply dom_insert_present|].
    intros id' Hne. by rewrite lookup_insert_ne.
Qed.

Lemma update_progress_then_get_context_witness :
  students demo_world !! "student_001" = Some demo_student /\
  exists w',
    (update_progress demo_clock "student_001" "solved" {[ "problem" := "Two Sum" ]} ;;
     get_student_context "student_001") demo_world =
      (Ok (Entry (mkStudent (profile demo_student)
                    (progress demo_student ++
                     [mkActivity "solved" {[ "problem" := "Two Sum" ]}
                        (demo_clock (ticks demo_world))])
                    (preferences demo_student) (created_at demo_student))), w') /\
    dom (students w') = dom (students demo_world) /\
    forall id', id' <> "student_001" -> students w' !! id' = students demo_world !! id'.
Proof.
  split.
  - vm_compute. reflexivity.
  - apply (update_progress_then_get_context demo_clock "student_001" "solved"
             {[ "problem" := "Two Sum" ]} demo_world demo_student).
    vm_compute. reflexivity.
Defined.

(** X15: [add_student] touches the entry of its own id only: the stored ids
    are the old ones and the new id, every other entry is as it was, the
    number of students grows by one for a new id and stays for a known one,
    and the entry's creation time is the clock's one reading. *)
Theorem add_student_effect
    (clock : nat -> string) (id : string) (p : gmap string Scalar) (w : World) :
  exists w',
    add_student clock id p w = (Ok tt, w') /\
    students w' !! id = Some (mkStudent p [] ∅ (clock (ticks w))) /\
    ticks w' = S (ticks w) /\
    dom (students w') = {[ id ]} ∪ dom (students w) /\
    (forall id', id' <> id -> students w' !! id' = students w !! id') /\
    size (students w') = match students w !! id with
                         | Some _ => size (students w)
                         | None => S (size (students w))
                         end.
Proof.
  eexists. split; [reflexivity|]. cbn [students ticks].
  split; [by rewrite lookup_insert_eq|]. split; [reflexivity|].
  split; [by rewrite dom_insert_L|].
  split; [intros id' Hne; by rewrite lookup_insert_ne|].
  destruct (students w !! id) as [s|] eqn:Hid.
  - by rewrite map_size_insert_Some.
  - by rewrite map_size_insert_None.
Qed.

(** ** The resume analyzer's report *)

Lemma list_truthy_false {A} (l : list A) : list_truthy l = false <-> l = [].
Proof. destruct l; split; intros H; done. Qed.

Lemma matched_count_zero (resume_text : string) :
  matched_count resume_text = 0 <-> found_tech resume_text = [].
Proof.
  unfold matched_count, len. destruct (found_tech resume_text); simpl; split; intros H;
    try done; lia.
Qed.

(** X16: the report of [analyze] follows the score: the suggestion to add
    technical skills is made exactly when the score is below 45 (fewer than
    five skills found), and the one strength is listed exactly when the score
    is above 20 (at least one skill found); the call changes neither the
    students nor the clock. *)
Theorem analyze_report_follows_score (resume_text target_role : string) (w : World) :
  exists a w',
    ResumeAnalyzer.analyze resume_text target_role w = (Ok a, w') /\
    (ResumeAnalyzer.suggestions a =
       if ResumeAnalyzer.ats_score a <? 45
       then [ "Add more technical skills relevant to the role" ] else []) /\
    (ResumeAnalyzer.strengths a =
       if 20 <? ResumeAnalyzer.ats_score a
       then [ "Found " +:+ pretty ((ResumeAnalyzer.ats_score a - 20) / 5)
              +:+ " relevant technical skills" ]
       else []) /\
    students w' = students w /\ ticks w' = ticks w.
Proof.
  rewrite analyze_run. eexists _, _. split; [reflexivity|].
  cbn [ResumeAnalyzer.suggestions ResumeAnalyzer.strengths ResumeAnalyzer.ats_score
       students ticks log_more].
  pose proof (matched_count_bounds resume_text) as Hb.
  rewrite Z.min_r by lia.
  replace ((matched_count resume_text * 5 + 20 - 20) / 5) with (matched_count resume_text)
    by (rewrite Z.add_simpl_r, Z.div_mul; lia).
  split; [|split; [|done]].
  - destruct (Z.ltb_spec (matched_count resume_text) 5),
      (Z.ltb_spec (matched_count resume_text * 5 + 20) 45); try lia; reflexivity.
  - destruct (Z.ltb_spec 20 (matched_count resume_text * 5 + 20)) as [H|H].
    + destruct (list_truthy (found_tech resume_text)) eqn:E; [reflexivity|].
      apply list_truthy_false, matched_count_zero in E. lia.
    + assert (matched_count resume_text = 0) as E by lia.
      apply matched_count_zero in E. by rewrite E.
Qed.

(** X17: the skills are matched as substrings, not as words: a text that
    mentions "javascript" is also counted for "java", so it scores at least
    30. *)
Theorem javascript_counts_as_java (resume_text target_role : string) (w : World) :
  is_substring "javascript" (lower resume_text) ->
  exists a found,
    value_of (ResumeAnalyzer.analyze resume_text target_role) w = Some a /\
    ResumeAnalyzer.keyword_analysis a !! "technical_skills" = Some found /\
    In "java" found /\ In "javascript" found /\
    30 <= ResumeAnalyzer.ats_score a.
Proof.
  intros Hjs.
  assert (is_substring "java" (lower resume_text)) as Hjava.
  { destruct Hjs as (pre & post & E). exists pre, ("script" +:+ post).
    by rewrite E. }
  apply str_in_spec in Hjs, Hjava.
  unfold value_of. rewrite analyze_run. eexists _, _. split; [reflexivity|].
  cbn [ResumeAnalyzer.keyword_analysis ResumeAnalyzer.ats_score].
  split; [by rewrite lookup_singleton_eq|].
  split; [apply filter_In; split; [cbn; tauto | done]|].
  split; [apply filter_In; split; [cbn; tauto | done]|].
  assert (2 <= matched_count resume_text); [|lia].
  unfold matched_count, found_tech, technical_skills, len. cbn [List.filter].
  rewrite Hjs, Hjava.
  repeat match goal with |- context [if ?c then _ else _] => destruct c end;
    cbn [List.length]; lia.
Qed.

Lemma javascript_counts_as_java_witness :
  is_substring "javascript" (lower "JavaScript developer") /\
  exists a found,
    value_of (ResumeAnalyzer.analyze "JavaScript developer" "Web Developer") boot = Some a /\
    ResumeAnalyzer.keyword_analysis a !! "technical_skills" = Some found /\
    In "java" found /\ In "javascript" found /\
    30 <= ResumeAnalyzer.ats_score a.
Proof.
  assert (is_substring "javascript" (lower "JavaScript developer")) as H
    by (apply str_in_spec; vm_compute; reflexivity).
  split; [exact H|].
  exact (javascript_counts_as_java "JavaScript developer" "Web Developer" boot H).
Defined.



(** X19: only the technical skills count: a text in which none of the nine
    occurs scores 20, is told to add technical skills and gets no strength,
    whatever soft skills or action verbs it names. *)
Theorem analyze_without_technical_skill (resume_text target_role : string) (w : World) :
  (forall skill, In skill technical_skills -> ~ is_substring skill (lower resume_text)) ->
  exists a,
    value_of (ResumeAnalyzer.analyze resume_text target_role) w = Some a /\
    ResumeAnalyzer.ats_score a = 20 /\
    ResumeAnalyzer.keyword_analysis a !! "technical_skills" = Some [] /\
    ResumeAnalyzer.suggestions a = [ "Add more technical skills relevant to the role" ] /\
    ResumeAnalyzer.strengths a = [].
Proof.
  intros Hnone.
  assert (found_tech resume_text = []) as E.
  { destruct (found_tech resume_text) as [|k l] eqn:Hf; [reflexivity|].
    assert (In k (found_tech resume_text)) as Hk by (rewrite Hf; by left).
    apply found_tech_spec in Hk as [Hin Hsub]. by destruct (Hnone k Hin). }
  unfold value_of. rewrite analyze_run. eexists. split; [reflexivity|].
  cbn [ResumeAnalyzer.ats_score ResumeAnalyzer.keyword_analysis
       ResumeAnalyzer.suggestions ResumeAnalyzer.strengths].
  unfold matched_count. rewrite E. by rewrite lookup_singleton_eq.
Qed.

Lemma analyze_without_technical_skill_witness :
  exists a,
    value_of (ResumeAnalyzer.analyze "Led a team; strong leadership and communication"
                "Manager") boot = Some a /\
    ResumeAnalyzer.ats_score a = 20 /\
    ResumeAnalyzer.keyword_analysis a !! "technical_skills" = Some [] /\
    ResumeAnalyzer.suggestions a = [ "Add more technical skills relevant to the role" ] /\
    ResumeAnalyzer.strengths a = [].
Proof.
  apply (analyze_without_technical_skill
           "Led a team; strong leadership and communication" "Manager" boot).
  intros skill Hin. apply str_in_false.
  unfold technical_skills in Hin. cbn [In] in Hin.
  repeat (destruct Hin as [<-|Hin]; [vm_compute; reflexivity|]). destruct Hin.
Defined.

(** ** The resource agent *)

Lemma resources_lookup (k : string) :
  LearningResourceAgent.resources !! k =
  if decide (k = "dsa") then Some dsa_resources
  else if decide (k = "system_design") then Some system_design_resources
  else None.
Proof.
  unfold LearningResourceAgent.resources.
  rewrite lookup_insert; case_decide; subst; [by repeat case_decide|].
  rewrite lookup_singleton. by repeat case_decide.
Qed.

(** X20: [LearningResourceAgent.recommend] looks the topic up lower-cased and
    with its spaces turned into underscores, and ignores the level: it
    returns the two "dsa" resources or the two "system_design" ones when the
    topic comes down to one of these keys ("System Design", "DSA", ...), and
    the empty list, raising nothing, for every other topic. *)
Theorem recommend_resources_by_topic (topic level : string) (w : World) :
  exists rs w',
    LearningResourceAgent.recommend topic level w = (Ok rs, w') /\
    (topic_key topic = "dsa" -> rs = dsa_resources) /\
    (topic_key topic = "system_design" -> rs = system_design_resources) /\
    (topic_key topic <> "dsa" -> topic_key topic <> "system_design" -> rs = []) /\
    logged w' = (logged w ++ [ "Recommended " +:+ pretty (len rs)
                                +:+ " resources for " +:+ topic ])%list /\
    students w' = students w /\ ticks w' = ticks w.
Proof.
  unfold LearningResourceAgent.recommend. fold (topic_key topic).
  eexists _, _. split; [reflexivity|].
  rewrite resources_lookup.
  repeat case_decide; cbn [default from_option]; repeat split; intros; congruence.
Qed.

(** ** The study planner at its edges *)

(** X21: with [weeks] at most 0 the loop of [create_plan] does not run: the
    plan comes back with an empty weekly schedule and no exception, also for
    an empty list of focus areas. *)
Theorem create_plan_no_weeks
    (weeks : Z) (focus_areas : list string) (hours_per_day : Z) (w : World) :
  weeks <= 0 ->
  StudyPlannerAgent.create_plan weeks focus_areas hours_per_day w =
  (Ok (StudyPlannerAgent.mkPlan (pretty weeks +:+ " weeks")
         (pretty hours_per_day +:+ " hours/day") [] []),
   log_more [ "Created " +:+ pretty weeks +:+ "-week study plan" ] w).
Proof.
  intros H. unfold StudyPlannerAgent.create_plan, range.
  rewrite seqZ_nil by lia. reflexivity.
Qed.

Lemma create_plan_no_weeks_witness :
  -2 <= 0 /\
  StudyPlannerAgent.create_plan (-2) [] 4 boot =
  (Ok (StudyPlannerAgent.mkPlan (pretty (-2) +:+ " weeks") (pretty 4 +:+ " hours/day") [] []),
   log_more [ "Created " +:+ pretty (-2) +:+ "-week study plan" ] boot).
Proof.
  split; [lia|]. apply (create_plan_no_weeks (-2) [] 4 boot). lia.
Defined.

(** X22: with [weeks] at least 1 and an empty list of focus areas,
    [create_plan] raises [ZeroDivisionError] in the first round of its loop,
    before anything is logged: the state is the one it was called in. *)
Theorem create_plan_empty_focus_areas (weeks hours_per_day : Z) (w : World) :
  1 <= weeks ->
  StudyPlannerAgent.create_plan weeks [] hours_per_day w = (Raise ZeroDivisionError, w).
Proof.
  intros H. unfold StudyPlannerAgent.create_plan, range.
  rewrite seqZ_cons by lia. reflexivity.
Qed.

Lemma create_plan_empty_focus_areas_witness :
  1 <= 3 /\
  StudyPlannerAgent.create_plan 3 [] 4 boot = (Raise ZeroDivisionError, boot).
Proof.
  split; [lia|]. apply (create_plan_empty_focus_areas 3 4 boot). lia.
Defined.

Lemma schedule_lookup (focus_areas : list string) (weeks : Z) (i : nat) :
  focus_areas <> [] ->
  Z.of_nat i < weeks ->
  exists x,
    map (week_entry focus_areas) (range 1 (weeks + 1)) !! i
      = Some (StudyPlannerAgent.mkWeekPlan (Z.of_nat i + 1) x weekly_activities) /\
    focus_areas !! (i mod List.length focus_areas)%nat = Some x.
Proof.
  intros Hne Hi.
  destruct (focus_of_defined _ Hne (Z.of_nat i + 1)) as [x Hx].
  exists x. split.
  - unfold range. rewrite list_lookup_fmap, lookup_seqZ_lt by lia.
    cbn [fmap option_fmap option_map]. unfold week_entry.
    replace (1 + Z.of_nat i) with (Z.of_nat i + 1) by lia. by rewrite Hx.
  - unfold focus_of, len in Hx.
    replace (Z.of_nat i + 1 - 1) with (Z.of_nat i) in Hx by lia.
    assert (List.length focus_areas <> 0%nat) by (destruct focus_areas; done).
    rewrite <- Nat2Z.inj_mod, Nat2Z.id in Hx. exact Hx.
Qed.

(** X23: the schedule of [create_plan] goes through a non-empty list of focus
    areas in order and starts again at its end: the first weeks take the
    areas one by one, the focus repeats every [len(focus_areas)] weeks, every
    focus is one of the areas, every week has the same three activities, and
    the milestones are empty. *)
Theorem create_plan_cycles
    (weeks : Z) (focus_areas : list string) (hours_per_day : Z) (w : World) :
  focus_areas <> [] ->
  exists plan w',
    StudyPlannerAgent.create_plan weeks focus_areas hours_per_day w = (Ok plan, w') /\
    (forall i, (i < List.length focus_areas)%nat -> Z.of_nat i < weeks ->
       StudyPlannerAgent.focus <$> StudyPlannerAgent.weekly_schedule plan !! i
         = focus_areas !! i) /\
    (forall i, Z.of_nat (i + List.length focus_areas) < weeks ->
       StudyPlannerAgent.focus <$>
         StudyPlannerAgent.weekly_schedule plan !! (i + List.length focus_areas)%nat
         = StudyPlannerAgent.focus <$> StudyPlannerAgent.weekly_schedule plan !! i) /\
    (forall e, In e (StudyPlannerAgent.weekly_schedule plan) ->
       In (StudyPlannerAgent.focus e) focus_areas /\
       StudyPlannerAgent.activities e = weekly_activities) /\
    StudyPlannerAgent.milestones plan = [].
Proof.
  intros Hne. rewrite (create_plan_run _ Hne). eexists _, _. split; [reflexivity|].
  cbn [StudyPlannerAgent.weekly_schedule StudyPlannerAgent.milestones].
  assert (List.length focus_areas <> 0%nat) as Hlen by (destruct focus_areas; done).
  split; [|split; [|split; [|reflexivity]]].
  - intros i Hi Hw.
    destruct (schedule_lookup focus_areas weeks i Hne Hw) as (x & -> & Hx).
    rewrite Nat.mod_small in Hx by done. by rewrite Hx.
  - intros i Hw.
    destruct (schedule_lookup focus_areas weeks _ Hne Hw) as (x & -> & Hx).
    assert (Z.of_nat i < weeks) as Hw' by lia.
    destruct (schedule_lookup focus_areas weeks i Hne Hw') as (y & -> & Hy).
    replace ((i + List.length focus_areas) mod List.length focus_areas)%nat
      with (i mod List.length focus_areas)%nat in Hx
      by (rewrite <- (Nat.Div0.mod_add i 1); f_equal; lia).
    cbn [fmap option_fmap option_map StudyPlannerAgent.focus]. congruence.
  - intros e He. apply list_elem_of_In, list_elem_of_lookup in He as [i Hi].
    assert (Z.of_nat i < weeks) as Hw.
    { apply lookup_lt_Some in Hi. unfold range in Hi.
      rewrite length_map, length_seqZ in Hi. lia. }
    destruct (schedule_lookup focus_areas weeks i Hne Hw) as (x & Hl & Hx).
    rewrite Hl in Hi. injection Hi as <-.
    cbn [StudyPlannerAgent.focus StudyPlannerAgent.activities].
    split; [|reflexivity].
    apply list_elem_of_In, list_elem_of_lookup. eauto.
Qed.

Lemma create_plan_cycles_witness :
  [ "DSA"; "System Design"; "Behavioral" ] <> [] /\
  exists plan w',
    StudyPlannerAgent.create_plan 5 [ "DSA"; "System Design"; "Behavioral" ] 2 boot
      = (Ok plan, w') /\
    (forall i, (i < List.length [ "DSA"; "System Design"; "Behavioral" ])%nat ->
       Z.of_nat i < 5 ->
       StudyPlannerAgent.focus <$> StudyPlannerAgent.weekly_schedule plan !! i
         = [ "DSA"; "System Design"; "Behavioral" ] !! i) /\
    (forall i, Z.of_nat (i + List.length [ "DSA"; "System Design"; "Behavioral" ]) < 5 ->
       StudyPlannerAgent.focus <$>
         StudyPlannerAgent.weekly_schedule plan
           !! (i + List.length [ "DSA"; "System Design"; "Behavioral" ])%nat
         = StudyPlannerAgent.focus <$> StudyPlannerAgent.weekly_schedule plan !! i) /\
    (forall e, In e (StudyPlannerAgent.weekly_schedule plan) ->
       In (StudyPlannerAgent.focus e) [ "DSA"; "System Design"; "Behavioral" ] /\
       StudyPlannerAgent.activities e = weekly_activities) /\
    StudyPlannerAgent.milestones plan = [].
Proof.
  split; [discriminate|].
  apply (create_plan_cycles 5 [ "DSA"; "System Design"; "Behavioral" ] 2 boot).
  discriminate.
Defined.

(** ** What the router logs *)

Lemma routed_messages_length (student_id ql : string) :
  List.length (routed_messages student_id ql) = S (size (routed_results ql)).
Proof.
  unfold routed_messages, routed_results.
  destruct (wants_problems ql), (wants_resume ql), (wants_resources ql), (wants_plan ql);
    cbv zeta;
    repeat (rewrite map_size_insert_None
              by (repeat (rewrite lookup_insert_ne by done); apply lookup_empty));
    rewrite map_size_empty; reflexivity.
Qed.

(** X24: [process_query] only adds lines to the log: first the line that
    names the student, then one line for each category that matched, and, for
    a stored student only, a last line that tells of the updated progress. *)
Theorem process_query_log_lines (clock : nat -> string) (u q : string) (w : World) :
  exists r w' lines,
    process_query clock u q w = (Ok r, w') /\
    logged w' = (logged w ++ lines)%list /\
    head lines = Some ("Processing query for student " +:+ u) /\
    List.length lines =
      match students w !! u with
      | Some _ => S (S (size (results r)))
      | None => S (size (results r))
      end /\
    (is_Some (students w !! u) ->
     last lines = Some ("Updated progress for " +:+ u +:+ ": query")).
Proof.
  rewrite process_query_run. unfold recorded. cbn [results].
  pose proof (routed_messages_length u (lower q)) as Hlen.
  destruct (students w !! u) as [s|]; cbn [logged].
  - eexists _, _, (routed_messages u (lower q) ++ [ _ ])%list.
    split; [reflexivity|]. split; [by rewrite app_assoc|].
    split; [reflexivity|]. split; [rewrite length_app, Hlen; simpl; lia|].
    intros _. by rewrite last_snoc.
  - eexists _, _, (routed_messages u (lower q)).
    split; [reflexivity|]. split; [reflexivity|].
    split; [reflexivity|]. split; [exact Hlen|].
    intros [? [=]].
Qed.

(** ** Text outside ASCII *)

(** The Kelvin sign lower-cases to [k] and the dotted capital I to [i] with a
    combining dot, so that they take part in the matching; other characters
    outside ASCII stay outside ASCII. *)
Example lower_outside_ascii :
  lower ("3 WEE" +:+ KELVIN_SIGN +:+ "S") = "3 weeks" /\
  lower (KELVIN_SIGN +:+ "ubernetes operator") = "kubernetes operator" /\
  lower ("STAC" +:+ KELVIN_SIGN) = "stack" /\
  lower ("ALGOR" +:+ CAPITAL_I_WITH_DOT_ABOVE +:+ "THM")
    = "algori" +:+ COMBINING_DOT_ABOVE +:+ "thm" /\
  str_in "algorithm" (lower ("ALGOR" +:+ CAPITAL_I_WITH_DOT_ABOVE +:+ "THM")) = false.
Proof. repeat split; vm_compute; reflexivity. Qed.

(** A query that spells "weeks" with the Kelvin sign gets the study plan. *)
Example kelvin_weeks_gets_study_plan (clock : nat -> string) (u : string) (w : World) :
  exists r w',
    process_query clock u ("3 WEE" +:+ KELVIN_SIGN +:+ "S") w = (Ok r, w') /\
    results r = {[ "study_plan" := StudyPlan four_week_plan ]}.
Proof.
  rewrite process_query_run. eexists _, _. split; [reflexivity|].
  cbn [results]. vm_compute. reflexivity.
Qed.

(** A resume that spells "kubernetes" with the Kelvin sign scores 25. *)
Example kelvin_kubernetes_scores_25 (target_role : string) (w : World) :
  exists a,
    value_of (ResumeAnalyzer.analyze (KELVIN_SIGN +:+ "ubernetes operator") target_role) w
      = Some a /\
    ResumeAnalyzer.ats_score a = 25 /\
    ResumeAnalyzer.keyword_analysis a !! "technical_skills" = Some [ "kubernetes" ] /\
    ResumeAnalyzer.strengths a = [ "Found 1 relevant technical skills" ].
Proof.
  unfold value_of. rewrite analyze_run. eexists. split; [reflexivity|].
  cbn [ResumeAnalyzer.ats_score ResumeAnalyzer.keyword_analysis ResumeAnalyzer.strengths].
  assert (found_tech (KELVIN_SIGN +:+ "ubernetes operator") = [ "kubernetes" ]) as E
    by (vm_compute; reflexivity).
  unfold matched_count. rewrite E. rewrite lookup_singleton_eq. by vm_compute.
Qed.

(** A topic that spells "Stack" with the Kelvin sign selects the stack
    problem. *)
Example kelvin_stack_topic :
  value_of (DSAProblemRecommender.recommend "easy" (Some ("STAC" +:+ KELVIN_SIGN))) boot
  = Some [ DSAProblemRecommender.mkProblem "Valid Parentheses" "Stack" "Easy" ].
Proof. vm_compute. reflexivity. Qed.

(** An entry on record stays in front of the one [update_progress] adds. *)
Example update_progress_keeps_recorded_entry :
  (progress <$>
     students (world_after (update_progress demo_clock "student_001" "solved"
                              {[ "problem" := "Two Sum" ]}) final_world)
       !! "student_001")
  = Some [ query_activity demo_clock demo_query 1;
           mkActivity "solved" {[ "problem" := "Two Sum" ]} (demo_clock 3) ].
Proof. vm_compute. reflexivity. Qed.
